(** * Order intake backend of Christmas-Storyz (src/server.js)

    Shallow embedding of the Express handlers of [server.js] that deal with
    checkout, the payment webhook and the admin status update, together with
    the JavaScript primitives they rely on (truthiness, property lookup with
    the [Object.prototype] chain, [Number.prototype.toString], [parseInt]).

    JSON request values are modelled by [jsval]; JSON numbers are modelled by
    their integer value (no claim needs a fractional number). The external
    services (Stripe, the mail transport, lowdb) are parameters: Stripe's
    [constructEvent] is a verification function, [sendMail] a function saying
    whether a send succeeds, and [db.write()] is assumed to succeed. *)

From Stdlib Require Import String Ascii List ZArith Bool Lia.
From Stdlib Require Import DecimalString DecimalN.
From Stdlib Require Import Sorted Permutation.
Import ListNotations.
Open Scope string_scope.
Open Scope Z_scope.

(** ** JavaScript values *)

Inductive jsval :=
| JUndefined
| JNull
| JBool (b : bool)
| JNum (n : Z)
| JStr (s : string).

(** ECMAScript ToBoolean. *)
Definition truthy (v : jsval) : bool :=
  match v with
  | JUndefined | JNull => false
  | JBool b => b
  | JNum n => negb (n =? 0)
  | JStr s => negb (String.eqb s "")
  end.

(** Decimal digits of a natural number, most significant first. *)
Definition dec_N (n : N) : string :=
  DecimalString.NilEmpty.string_of_uint (N.to_uint n).

(** ** Numbers

    A JavaScript number is an IEEE double. The values the program handles
    are integers, so a number is modelled as the integer it denotes; the
    arithmetic of the source then rounds to a double, as below. *)

(** The double nearest to a positive integer [y] (ties to even), without
    the exponent bound: [y] itself below 2^53, else the 53 leading bits of
    [y], rounded on the remaining ones. *)
Definition round_pos (y : Z) : Z :=
  let n := Z.log2 y in
  if n <? 53 then y
  else
    let sh := n - 52 in
    let m := y / 2 ^ sh in
    let r := y mod 2 ^ sh in
    let half := 2 ^ (sh - 1) in
    let m' := if (half <? r) || ((r =? half) && Z.odd m) then m + 1 else m in
    m' * 2 ^ sh.

(** The double an exact integer result becomes; [None] when it rounds to an
    infinity (at 2^1024 and above). *)
Definition double_round (x : Z) : option Z :=
  let a := round_pos (Z.abs x) in
  if 2 ^ 1024 <=? a then None else Some (Z.sgn x * a).

(** Number of decimal digits of a positive integer. *)
Definition num_digits (x : Z) : Z := Z.of_nat (String.length (dec_N (Z.to_N x))).

(** [Number::toString], step 5: [s] has [k] digits and [s * 10 ^ e] denotes
    [x] as a double. The pairs worth trying for a given [k] are the two
    multiples of [10 ^ e] around [x], for the two exponents that give [k]
    digits. *)
Definition digit_candidates (x k : Z) : list (Z * Z) :=
  let d := num_digits x in
  flat_map (fun e => [(x / 10 ^ e, e); (x / 10 ^ e + 1, e)]) [d - k; d - k + 1].

Definition digits_denote (x k : Z) (c : Z * Z) : bool :=
  let '(s, e) := c in
  (10 ^ (k - 1) <=? s) && (s <? 10 ^ k) && (0 <=? e) &&
  match double_round (s * 10 ^ e) with Some y => y =? x | None => false end.

(** Of two candidates, the one whose value is closer to [x], the even one on
    a tie. *)
Definition closer (x : Z) (c1 c2 : Z * Z) : Z * Z :=
  let d1 := Z.abs (fst c1 * 10 ^ snd c1 - x) in
  let d2 := Z.abs (fst c2 * 10 ^ snd c2 - x) in
  if d1 <? d2 then c1 else if d2 <? d1 then c2
  else if Z.even (fst c1) then c1 else c2.

(** The smallest [k] for which a candidate exists; [k] = number of digits of
    [x] always has one ([s = x], [e = 0]) when [x] is a double. *)
Fixpoint shortest_from (x k : Z) (fuel : nat) : Z * Z :=
  match fuel with
  | O => (x, 0)
  | S f =>
      match filter (digits_denote x k) (digit_candidates x k) with
      | c :: cs => fold_left (closer x) cs c
      | [] => shortest_from x (k + 1) f
      end
  end.

Definition shortest_digits (x : Z) : Z * Z :=
  shortest_from x 1 (Z.to_nat (num_digits x)).

(** Exponential form, step 9: first digit of [s], then "." and its other
    digits if any, then "e+" and [n - 1] where [n] is [k + e]. *)
Definition exp_form (s e : Z) : string :=
  let ds := dec_N (Z.to_N s) in
  match ds with
  | String h rest =>
      String h ((if String.eqb rest "" then "" else String "." rest)
                  ++ "e+" ++ dec_N (Z.to_N (Z.of_nat (String.length ds) + e - 1)))
  | EmptyString => EmptyString
  end.

(** [Number::toString(x)] for an integer double [x]. Step 6 (k <= n <= 21:
    the digits of [s] then [n - k] zeros) is the decimal form of [s * 10 ^ e];
    [n <= 21] is [s * 10 ^ e < 10 ^ 21], since [s] has [k] digits. *)
Definition number_to_string (z : Z) : string :=
  if z =? 0 then "0"
  else
    let '(s, e) := shortest_digits (Z.abs z) in
    let body := if s * 10 ^ e <? 10 ^ 21 then dec_N (Z.to_N (s * 10 ^ e))
                else exp_form s e in
    if z <? 0 then String "-" body else body.

(** ECMAScript ToString on the values a JSON body can hold. *)
Definition js_to_string (v : jsval) : string :=
  match v with
  | JUndefined => "undefined"
  | JNull => "null"
  | JBool true => "true"
  | JBool false => "false"
  | JNum n => number_to_string n
  | JStr s => s
  end.

(** ** [parseInt(s)] with no radix argument *)

Definition is_ws (c : ascii) : bool :=
  existsb (fun n => Nat.eqb (nat_of_ascii c) n) [9; 10; 11; 12; 13; 32; 160]%nat.

Fixpoint trim_start (s : string) : string :=
  match s with
  | String c r => if is_ws c then trim_start r else s
  | EmptyString => EmptyString
  end.

Definition is_digit (c : ascii) : bool :=
  (Nat.leb 48 (nat_of_ascii c) && Nat.leb (nat_of_ascii c) 57)%nat.

Fixpoint digit_prefix (s : string) : string :=
  match s with
  | String c r => if is_digit c then String c (digit_prefix r) else EmptyString
  | EmptyString => EmptyString
  end.

Definition hex_val (c : ascii) : option Z :=
  let n := nat_of_ascii c in
  if (Nat.leb 48 n && Nat.leb n 57)%nat then Some (Z.of_nat n - 48)
  else if (Nat.leb 97 n && Nat.leb n 102)%nat then Some (Z.of_nat n - 87)
  else if (Nat.leb 65 n && Nat.leb n 70)%nat then Some (Z.of_nat n - 55)
  else None.

(** Value of the longest hexadecimal prefix; [None] when it is empty. *)
Fixpoint hex_prefix (acc : option Z) (s : string) : option Z :=
  match s with
  | String c r =>
      match hex_val c with
      | Some d => hex_prefix (Some (16 * match acc with Some a => a | None => 0 end + d)) r
      | None => acc
      end
  | EmptyString => acc
  end.

(** [None] is [NaN], or an infinity for a digit string beyond the double
    range (both are written as [null] by [JSON.stringify]). The value of the
    digits is rounded to the nearest double. *)
Definition parse_int (s : string) : option Z :=
  let s1 := trim_start s in
  let '(sign, s2) :=
    match s1 with
    | String c r =>
        if Ascii.eqb c "-"%char then (-1, r)
        else if Ascii.eqb c "+"%char then (1, r) else (1, s1)
    | EmptyString => (1, s1)
    end in
  let decimal :=
    match digit_prefix s2 with
    | EmptyString => None
    | p => match DecimalString.NilEmpty.uint_of_string p with
           | Some u => double_round (sign * Z.of_N (N.of_uint u))
           | None => None
           end
    end in
  match s2 with
  | String z (String x r) =>
      if Ascii.eqb z "0"%char && (Ascii.eqb x "x"%char || Ascii.eqb x "X"%char)
      then match hex_prefix None r with
           | Some v => double_round (sign * v)
           | None => None
           end
      else decimal
  | _ => decimal
  end.

(** ** Property lookup on an object literal

    [obj[k]] on a plain object literal: an own property, else a property
    inherited from [Object.prototype] (all of which are truthy: functions,
    or the object [Object.prototype] itself for [__proto__]), else
    [undefined]. *)

Inductive lookup (A : Type) :=
| Own (a : A)
| Inherited (name : string)
| Absent.
Arguments Own {A} a.
Arguments Inherited {A} name.
Arguments Absent {A}.

Definition object_prototype_names : list string :=
  ["constructor"; "__defineGetter__"; "__defineSetter__"; "hasOwnProperty";
   "__lookupGetter__"; "__lookupSetter__"; "isPrototypeOf";
   "propertyIsEnumerable"; "toString"; "valueOf"; "__proto__";
   "toLocaleString"].

Fixpoint assoc {A} (k : string) (l : list (string * A)) : option A :=
  match l with
  | (k', a) :: r => if String.eqb k k' then Some a else assoc k r
  | [] => None
  end.

Definition js_lookup {A} (own : list (string * A)) (k : string) : lookup A :=
  match assoc k own with
  | Some a => Own a
  | None =>
      if existsb (String.eqb k) object_prototype_names then Inherited k
      else Absent
  end.

(** Truthiness of [obj[k]]. *)
Definition lookup_truthy {A} (r : lookup A) : bool :=
  match r with Absent => false | _ => true end.

(** ECMAScript ToPropertyKey on a JSON value. *)
Definition to_key (v : jsval) : string := js_to_string v.

(** ** Catalog: [PRODUCTS] and [VIBES] *)

Record product := {
  price : Z;
  name : string;
  shippingRequired : bool
}.

Definition PRODUCTS : list (string * product) :=
  [("digital", {| price := 7900; name := "Digital Only"; shippingRequired := false |});
   ("print", {| price := 18900; name := "Fine-Art Print"; shippingRequired := true |});
   ("framed", {| price := 39900; name := "Framed Edition"; shippingRequired := true |})].

Definition VIBES : list (string * string) :=
  [("homeAlone", "Home Alone"); ("elf", "Elf"); ("vacation", "Christmas Vacation")].

(** [PRODUCTS[tier].price]: an inherited property (a function or
    [Object.prototype]) has no [price] field; [None] is the TypeError of
    reading a property of [undefined]. *)
Definition price_of (tier : string) : option jsval :=
  match js_lookup PRODUCTS tier with
  | Own p => Some (JNum (price p))
  | Inherited _ => Some JUndefined
  | Absent => None
  end.

Definition requires_shipping (tier : string) : option jsval :=
  match js_lookup PRODUCTS tier with
  | Own p => Some (JBool (shippingRequired p))
  | Inherited _ => Some JUndefined
  | Absent => None
  end.

(** [VIBES[vibe]]: the display name, an inherited value, or [undefined]. *)
Definition display_name (vibe : string) : lookup string := js_lookup VIBES vibe.

(** ** Data exchanged with the payment processor *)

(** Fields of [stripe.checkout.sessions.create(...)] read by the claims:
    the single line item's [unit_amount] and [quantity], [customer_email]
    and [metadata] (its values as the code passes them). The product label,
    URLs, mode and payment method types are not modelled. *)
Record session_request := {
  sr_unit_amount : jsval;
  sr_quantity : jsval;
  sr_customer_email : jsval;
  sr_metadata : list (string * jsval)
}.

(** [event.data.object] of a checkout session; metadata values are strings. *)
Record session := {
  s_id : string;
  s_payment_intent : jsval;
  s_customer_email : jsval;
  s_amount_total : jsval;
  s_metadata : list (string * string)
}.

Record event := {
  ev_type : string;
  ev_object : session
}.

(** [session.metadata.k]. *)
Definition meta_get (k : string) (md : list (string * string)) : jsval :=
  match assoc k md with Some v => JStr v | None => JUndefined end.

(** ** Orders and the store *)

Record order := {
  o_id : jsval;
  o_stripeSessionId : string;
  o_stripePaymentIntent : jsval;
  o_vibe : jsval;
  o_tier : jsval;
  o_quantity : option Z;  (* [None] is NaN or an infinity *)
  o_uploadId : jsval;
  o_customerName : jsval;
  o_customerEmail : jsval;
  o_customerPhone : jsval;
  o_shippingAddress : jsval;
  o_notes : jsval;
  o_amount : jsval;
  o_status : jsval;
  o_createdAt : string;
  o_updatedAt : string
}.

Inductive recipient := ToCustomer (email : jsval) | ToAdmin.

Inductive mail_kind :=
| OrderConfirmation
| InternalNotification
| StatusUpdate (status_upper : string) (message : lookup string).

Record mail := {
  m_kind : mail_kind;
  m_to : recipient;
  m_order : jsval
}.

(** [db.data.orders], the mails handed to the transport successfully, and
    the lines written with [console.error]. *)
Record state := {
  orders : list order;
  outbox : list mail;
  log : list string
}.

Inductive response :=
| RStatus (code : Z) (message : string)  (* res.status(code).json/send *)
| RReceived                              (* res.json({ received: true }) *)
| RSession (sessionId : string)          (* res.json({ sessionId, url }) *)
| ROrder (o : order)                     (* res.json({ success: true, order }) *)
| RUnhandled.                            (* rejected handler promise: no response *)

(** ** [POST /api/create-checkout] *)

Record checkout_body := {
  b_vibe : jsval;
  b_tier : jsval;
  b_quantity : jsval;
  b_uploadId : jsval;
  b_customerName : jsval;
  b_customerEmail : jsval;
  b_customerPhone : jsval;
  b_shippingAddress : jsval;
  b_notes : jsval
}.

(** [v || ''] *)
Definition or_empty (v : jsval) : jsval := if truthy v then v else JStr "".

(** [!vibe || !tier || !quantity || !uploadId || !customerName || !customerEmail] *)
Definition missing_required (b : checkout_body) : bool :=
  negb (truthy (b_vibe b)) || negb (truthy (b_tier b)) || negb (truthy (b_quantity b))
  || negb (truthy (b_uploadId b)) || negb (truthy (b_customerName b))
  || negb (truthy (b_customerEmail b)).

(** [product.price] for the value [PRODUCTS[tier]] passed the truthiness check. *)
Definition product_price (p : lookup product) : jsval :=
  match p with Own p => JNum (price p) | _ => JUndefined end.

(** [const totalAmount = product.price * quantity] (computed, never read
    afterwards): the double nearest to the exact product; [None] when it is
    no finite integer (NaN, an infinity, or an operand that is not a number). *)
Definition total_amount (p : lookup product) (quantity : jsval) : option Z :=
  match p, quantity with
  | Own p, JNum q => double_round (price p * q)
  | _, _ => None
  end.

(** The validation steps and the session request they lead to; [inl msg] is
    the 400 answer. [orderId] is the value [uuidv4()] returns. *)
Definition checkout_step (orderId : string) (b : checkout_body)
  : string + session_request :=
  if missing_required b then inl "Missing required fields"
  else
    let product := js_lookup PRODUCTS (to_key (b_tier b)) in
    if negb (lookup_truthy product) then inl "Invalid tier"
    else if negb (lookup_truthy (js_lookup VIBES (to_key (b_vibe b))))
    then inl "Invalid vibe"
    else inr {|
      sr_unit_amount := product_price product;
      sr_quantity := b_quantity b;
      sr_customer_email := b_customerEmail b;
      sr_metadata :=
        [("orderId", JStr orderId);
         ("vibe", b_vibe b);
         ("tier", b_tier b);
         ("quantity", JStr (js_to_string (b_quantity b)));
         ("uploadId", b_uploadId b);
         ("customerName", b_customerName b);
         ("customerPhone", or_empty (b_customerPhone b));
         ("shippingAddress", or_empty (b_shippingAddress b));
         ("notes", or_empty (b_notes b))] |}.

(** The handler; [stripe_create] is [stripe.checkout.sessions.create]
    ([None] when it throws). The second component is the request sent to
    the processor, if any. *)
Definition create_checkout (stripe_create : session_request -> option session)
    (orderId : string) (b : checkout_body) : response * option session_request :=
  match checkout_step orderId b with
  | inl msg => (RStatus 400 msg, None)
  | inr req =>
      match stripe_create req with
      | Some s => (RSession (s_id s), Some req)
      | None => (RStatus 500 "Failed to create checkout session", Some req)
      end
  end.

(** ** Notifier *)

Definition set_outbox (st : state) (ob : list mail) : state :=
  {| orders := orders st; outbox := ob; log := log st |}.
Definition set_log (st : state) (l : list string) : state :=
  {| orders := orders st; outbox := outbox st; log := l |}.
Definition set_orders (st : state) (os : list order) : state :=
  {| orders := os; outbox := outbox st; log := log st |}.

(** [try { await transporter.sendMail(m) } catch (error) { console.error(err, error) }];
    [mailer m] says whether the transport accepts [m]. *)
Definition send (mailer : mail -> bool) (m : mail) (err : string) (st : state) : state :=
  if mailer m then set_outbox st (outbox st ++ [m])
  else set_log st (log st ++ [err]).

(** [sendOrderConfirmation]: [PRODUCTS[order.tier].name] throws ([None])
    when the tier has no entry; otherwise the mail is sent inside try/catch. *)
Definition sendOrderConfirmation (mailer : mail -> bool) (o : order) (st : state)
  : option state :=
  match js_lookup PRODUCTS (to_key (o_tier o)) with
  | Absent => None
  | _ => Some (send mailer {| m_kind := OrderConfirmation;
                              m_to := ToCustomer (o_customerEmail o);
                              m_order := o_id o |} "Email error:" st)
  end.

Definition sendInternalNotification (mailer : mail -> bool) (o : order) (st : state)
  : option state :=
  match js_lookup PRODUCTS (to_key (o_tier o)) with
  | Absent => None
  | _ => Some (send mailer {| m_kind := InternalNotification;
                              m_to := ToAdmin;
                              m_order := o_id o |} "Internal email error:" st)
  end.

Definition statusMessages : list (string * string) :=
  [("pending", "Your order is being processed.");
   ("designing", "Our team is creating your custom poster!");
   ("proof_ready", "Your proof is ready for review! Check your email for the preview.");
   ("approved", "Your design has been approved and is being prepared.");
   ("printing", "Your poster is being printed on museum-quality paper.");
   ("shipped", "Your order has shipped! Check your email for tracking info.");
   ("completed", "Your order is complete! We hope you love it.")].

Definition ascii_upper (c : ascii) : ascii :=
  let n := nat_of_ascii c in
  if (Nat.leb 97 n && Nat.leb n 122)%nat then ascii_of_nat (n - 32) else c.

(** [String.prototype.toUpperCase] on ASCII text. *)
Fixpoint to_upper (s : string) : string :=
  match s with
  | String c r => String (ascii_upper c) (to_upper r)
  | EmptyString => EmptyString
  end.

(** [sendStatusUpdate]: building the mail evaluates [order.id.substring(0, 8)]
    and [order.status.toUpperCase()] outside the try block; both throw
    ([None]) unless the value is a string. *)
Definition sendStatusUpdate (mailer : mail -> bool) (o : order) (st : state)
  : option state :=
  match o_id o, o_status o with
  | JStr _, JStr s =>
      Some (send mailer {| m_kind := StatusUpdate (to_upper s) (js_lookup statusMessages s);
                           m_to := ToCustomer (o_customerEmail o);
                           m_order := o_id o |} "Status email error:" st)
  | _, _ => None
  end.

(** ** [POST /api/webhook] *)

(** The order built from [event.data.object]; [now] is the clock value read
    by [new Date().toISOString()]. *)
Definition build_order (s : session) (now : string) : order :=
  let md := s_metadata s in
  {| o_id := meta_get "orderId" md;
     o_stripeSessionId := s_id s;
     o_stripePaymentIntent := s_payment_intent s;
     o_vibe := meta_get "vibe" md;
     o_tier := meta_get "tier" md;
     o_quantity := parse_int (js_to_string (meta_get "quantity" md));
     o_uploadId := meta_get "uploadId" md;
     o_customerName := meta_get "customerName" md;
     o_customerEmail := s_customer_email s;
     o_customerPhone := meta_get "customerPhone" md;
     o_shippingAddress := meta_get "shippingAddress" md;
     o_notes := meta_get "notes" md;
     o_amount := s_amount_total s;
     o_status := JStr "pending";
     o_createdAt := now;
     o_updatedAt := now |}.

(** [db.data.orders.push(order); await db.write()] *)
Definition push_order (o : order) (st : state) : state :=
  set_orders st (orders st ++ [o]).

(** The handler. [construct_event payload sig] is
    [stripe.webhooks.constructEvent(req.body, sig, STRIPE_WEBHOOK_SECRET)],
    [None] when it throws. An exception thrown by a notifier after the push
    rejects the handler's promise: no response is sent ([RUnhandled]). *)
Definition webhook (construct_event : string -> option string -> option event)
    (mailer : mail -> bool) (now : string)
    (payload : string) (sig : option string) (st : state) : response * state :=
  match construct_event payload sig with
  | None => (RStatus 400 "Webhook Error", set_log st (log st ++ ["Webhook error:"]))
  | Some ev =>
      if String.eqb (ev_type ev) "checkout.session.completed" then
        let o := build_order (ev_object ev) now in
        let st1 := push_order o st in
        match sendOrderConfirmation mailer o st1 with
        | None => (RUnhandled, st1)
        | Some st2 =>
            match sendInternalNotification mailer o st2 with
            | None => (RUnhandled, st2)
            | Some st3 => (RReceived, st3)
            end
        end
      else (RReceived, st)
  end.

(** ** [POST /api/webhook] behind the body parsers

    [app.use(express.json())] (line 65) runs for every request, before the
    route's own [express.raw({ type: 'application/json' })]. Both are
    body-parser 1.20 middlewares (Express 4.18); each one leaves a request
    alone once the flag [req._body] is set. *)

(** The parts of a request the parsers and the handler read. *)
Record http_request := {
  rq_has_body : bool;     (* a Content-Length or Transfer-Encoding header *)
  rq_json_type : bool;    (* the Content-Type is application/json *)
  rq_utf_charset : bool;  (* no charset, or one starting with "utf-" *)
  rq_raw : string;        (* the bytes of the body *)
  rq_sig : option string  (* req.headers['stripe-signature'] *)
}.

(** A value [JSON.parse] returns in body-parser's strict mode: an object, or
    an array, kept as the text [String(array)] gives. *)
Inductive json_top := JsonObject | JsonArray (joined : string).

(** [req.body]. *)
Inductive req_body := BodyUndefined | BodyParsed (v : json_top) | BodyBuffer (raw : string).

(** [req.body] and [req._body]. *)
Record req_state := { rb_body : req_body; rb_parsed : bool }.

(** The default [limit] of both parsers, '100kb'. *)
Definition parser_limit : Z := 100 * 1024.

(** [req.body = req.body || {}] *)
Definition body_or_empty (b : req_body) : req_body :=
  match b with BodyUndefined => BodyParsed JsonObject | _ => b end.

(** [express.json()]; [inl (status, message)] is the error it passes to
    Express's final handler. [json_parse] is [JSON.parse] with the strict
    check on the first character ([None]: it throws). An empty body parses
    as [{}]. *)
Definition express_json (json_parse : string -> option json_top)
    (rq : http_request) (r : req_state) : (Z * string) + req_state :=
  if rb_parsed r then inr r
  else
    let r := {| rb_body := body_or_empty (rb_body r); rb_parsed := false |} in
    if negb (rq_has_body rq) || negb (rq_json_type rq) then inr r
    else if negb (rq_utf_charset rq) then inl (415, "unsupported charset")
    else if parser_limit <? Z.of_nat (String.length (rq_raw rq))
    then inl (413, "request entity too large")
    else if String.eqb (rq_raw rq) "" then inr {| rb_body := BodyParsed JsonObject; rb_parsed := true |}
    else
      match json_parse (rq_raw rq) with
      | Some v => inr {| rb_body := BodyParsed v; rb_parsed := true |}
      | None => inl (400, "entity.parse.failed")
      end.

(** [express.raw({ type: 'application/json' })]: the body as a Buffer. *)
Definition express_raw (rq : http_request) (r : req_state) : (Z * string) + req_state :=
  if rb_parsed r then inr r
  else
    let r := {| rb_body := body_or_empty (rb_body r); rb_parsed := false |} in
    if negb (rq_has_body rq) || negb (rq_json_type rq) then inr r
    else if parser_limit <? Z.of_nat (String.length (rq_raw rq))
    then inl (413, "request entity too large")
    else inr {| rb_body := BodyBuffer (rq_raw rq); rb_parsed := true |}.

(** The text [constructEvent] signs and parses: [String(req.body)] for a
    parsed value, the UTF-8 text of a Buffer. *)
Definition body_text (b : req_body) : string :=
  match b with
  | BodyUndefined => "undefined"
  | BodyParsed JsonObject => "[object Object]"
  | BodyParsed (JsonArray j) => j
  | BodyBuffer raw => raw
  end.

Definition json_ws (c : ascii) : bool :=
  existsb (fun n => Nat.eqb (nat_of_ascii c) n) [9; 10; 13; 32]%nat.

Fixpoint skip_json_ws (s : string) : string :=
  match s with
  | String c r => if json_ws c then skip_json_ws r else s
  | EmptyString => EmptyString
  end.

(** A character a JSON value can start with: brace, bracket, double quote
    (code 34), minus, digit, or the first letter of true, false, null. *)
Definition json_value_start (c : ascii) : bool :=
  existsb (Ascii.eqb c) ["{"; "["; "-"; "t"; "f"; "n"]%char
  || Nat.eqb (nat_of_ascii c) 34 || is_digit c.

(** False when [JSON.parse] throws on the first characters of [s]: no value
    starts there, or an array starts with something that is neither "]" nor
    a value. *)
Definition json_may_parse (s : string) : bool :=
  match skip_json_ws s with
  | String c r =>
      if Ascii.eqb c "["%char then
        match skip_json_ws r with
        | String d _ => Ascii.eqb d "]"%char || json_value_start d
        | EmptyString => false
        end
      else json_value_start c
  | EmptyString => false
  end.

(** [stripe.webhooks.constructEvent(payload, sig, secret)] of stripe-node 14:
    the header is checked against the HMAC of the timestamp and the text of
    [payload] ([signature_ok], which holds the secret), then the text is
    [JSON.parse]d: it throws where [json_may_parse] fails, and [parse_event]
    is the rest of the parse. [None] is an exception. *)
Definition construct_event (signature_ok : string -> option string -> bool)
    (parse_event : string -> option event) (payload : string) (sig : option string)
  : option event :=
  if signature_ok payload sig && json_may_parse payload then parse_event payload else None.

(** The route as deployed: [express.json()], then [express.raw(...)], then the
    handler, whose [req.body] reaches [constructEvent]. *)
Definition webhook_route (signature_ok : string -> option string -> bool)
    (parse_event : string -> option event) (json_parse : string -> option json_top)
    (mailer : mail -> bool) (now : string) (rq : http_request) (st : state)
  : response * state :=
  match express_json json_parse rq {| rb_body := BodyUndefined; rb_parsed := false |} with
  | inl (code, msg) => (RStatus code msg, st)
  | inr r1 =>
      match express_raw rq r1 with
      | inl (code, msg) => (RStatus code msg, st)
      | inr r2 =>
          webhook (construct_event signature_ok parse_event) mailer now
                  (body_text (rb_body r2)) (rq_sig rq) st
      end
  end.

(** Deliveries of [rqs], one after the other. *)
Definition deliver_all (signature_ok : string -> option string -> bool)
    (parse_event : string -> option event) (json_parse : string -> option json_top)
    (mailer : mail -> bool) (now : string) (rqs : list http_request) (st : state) : state :=
  fold_left (fun st rq => snd (webhook_route signature_ok parse_event json_parse mailer now rq st))
            rqs st.

(** ** [PATCH /api/admin/orders/:orderId] *)

Definition has_id (orderId : string) (o : order) : bool :=
  match o_id o with JStr s => String.eqb s orderId | _ => false end.

(** In-place mutation of the element [Array.prototype.find] returns: the
    first element satisfying [p]. *)
Fixpoint update_first {A} (p : A -> bool) (f : A -> A) (l : list A) : list A :=
  match l with
  | x :: r => if p x then f x :: r else x :: update_first p f r
  | [] => []
  end.

(** [order.status = status; order.updatedAt = now] *)
Definition set_status (status : jsval) (now : string) (o : order) : order :=
  {| o_id := o_id o;
     o_stripeSessionId := o_stripeSessionId o;
     o_stripePaymentIntent := o_stripePaymentIntent o;
     o_vibe := o_vibe o;
     o_tier := o_tier o;
     o_quantity := o_quantity o;
     o_uploadId := o_uploadId o;
     o_customerName := o_customerName o;
     o_customerEmail := o_customerEmail o;
     o_customerPhone := o_customerPhone o;
     o_shippingAddress := o_shippingAddress o;
     o_notes := o_notes o;
     o_amount := o_amount o;
     o_status := status;
     o_createdAt := o_createdAt o;
     o_updatedAt := now |}.

(** The handler; [status] is [req.body.status] ([JUndefined] when absent).
    An exception in [sendStatusUpdate] lands in the route's catch: 500, after
    the mutation and the write. *)
Definition patch_order (mailer : mail -> bool) (now : string)
    (orderId : string) (status : jsval) (st : state) : response * state :=
  match find (has_id orderId) (orders st) with
  | None => (RStatus 404 "Order not found", st)
  | Some o =>
      let o' := set_status status now o in
      let st1 := set_orders st (update_first (has_id orderId) (set_status status now) (orders st)) in
      match sendStatusUpdate mailer o' st1 with
      | None => (RStatus 500 "Failed to update order", set_log st1 (log st1 ++ ["Order update error:"]))
      | Some st2 => (ROrder o', st2)
      end
  end.

(** ** The payment processor's contract

    What the handlers rely on from Stripe, between
    [stripe.checkout.sessions.create(req)] and the
    [checkout.session.completed] event carrying the session: the customer
    email and the string metadata values come back unchanged, and
    [amount_total] is [unit_amount * quantity] for the single line item. *)
Definition processor_ok (process : session_request -> session) : Prop :=
  (forall r, s_customer_email (process r) = sr_customer_email r) /\
  (forall r k v, assoc k (sr_metadata r) = Some (JStr v) ->
                 assoc k (s_metadata (process r)) = Some v) /\
  (forall r u q, sr_unit_amount r = JNum u -> sr_quantity r = JNum q ->
                 s_amount_total (process r) = JNum (u * q)).

(** A processor that behaves as that contract says, for concrete runs. *)
Definition echo_processor (sid : string) (r : session_request) : session :=
  {| s_id := sid;
     s_payment_intent := JStr "pi_1";
     s_customer_email := sr_customer_email r;
     s_amount_total :=
       match sr_unit_amount r, sr_quantity r with
       | JNum u, JNum q => JNum (u * q)
       | _, _ => JNull
       end;
     s_metadata := map (fun '(k, v) => (k, js_to_string v)) (sr_metadata r) |}.

(** A [CheckoutIntent] as the spec describes it: catalog codes as strings,
    a positive integer quantity, non-empty identifiers and contact fields,
    and optional phone, address and notes (absent or a string). *)
Definition optional_string (v : jsval) : Prop :=
  v = JUndefined \/ exists s, v = JStr s.

Definition valid_intent (b : checkout_body) : Prop :=
  (exists v, b_vibe b = JStr v /\ In v ["homeAlone"; "elf"; "vacation"]) /\
  (exists t, b_tier b = JStr t /\ In t ["digital"; "print"; "framed"]) /\
  (exists q, b_quantity b = JNum q /\ 0 < q) /\
  (exists u, b_uploadId b = JStr u /\ u <> "") /\
  (exists n, b_customerName b = JStr n /\ n <> "") /\
  (exists e, b_customerEmail b = JStr e /\ e <> "") /\
  optional_string (b_customerPhone b) /\
  optional_string (b_shippingAddress b) /\
  optional_string (b_notes b).

(** ** Sample data *)

Definition body_print2 : checkout_body :=
  {| b_vibe := JStr "elf"; b_tier := JStr "print"; b_quantity := JNum 2;
     b_uploadId := JStr "up-1"; b_customerName := JStr "Ann";
     b_customerEmail := JStr "ann@example.com"; b_customerPhone := JUndefined;
     b_shippingAddress := JStr "1 Main St"; b_notes := JUndefined |}.

Definition empty_state : state := {| orders := []; outbox := []; log := [] |}.

(** The signed event for [sess], accepted for the signature "good" only. *)
Definition signed_by (sess : event) (payload : string) (sig : option string) : option event :=
  match sig with Some "good" => Some sess | _ => None end.

Definition all_mail_ok : mail -> bool := fun _ => true.
Definition all_mail_fail : mail -> bool := fun _ => false.

(** The request [checkout_step "ord-1" body_print2] builds. *)
Definition print2_request : session_request :=
  {| sr_unit_amount := JNum 18900; sr_quantity := JNum 2;
     sr_customer_email := JStr "ann@example.com";
     sr_metadata :=
       [("orderId", JStr "ord-1"); ("vibe", JStr "elf"); ("tier", JStr "print");
        ("quantity", JStr "2"); ("uploadId", JStr "up-1");
        ("customerName", JStr "Ann"); ("customerPhone", JStr "");
        ("shippingAddress", JStr "1 Main St"); ("notes", JStr "")] |}.

Definition completed_event (s : session) : event :=
  {| ev_type := "checkout.session.completed"; ev_object := s |}.

Definition print2_event : event := completed_event (echo_processor "cs_1" print2_request).

(** ** [POST /api/upload] with its multer configuration *)

(** The multipart part of field "photo": client file name, declared MIME
    type and byte size. *)
Record file_part := {
  fp_originalname : string;
  fp_mimetype : string;
  fp_size : Z
}.

(** An element of [db.data.uploads]. *)
Record upload_record := {
  u_id : string;
  u_filename : string;
  u_originalName : string;
  u_path : string;
  u_size : Z;
  u_uploadedAt : string
}.

Inductive upload_response :=
| UStatus (code : Z) (message : string)          (* res.status(code).json *)
| UOk (uploadId filename url : string)           (* res.json({ success: true, ... }) *)
| UMiddlewareError (message : string).           (* error passed on by multer *)

Definition allowedTypes : list string :=
  ["image/jpeg"; "image/png"; "image/webp"; "image/heic"].

(** [limits: { fileSize: 25 * 1024 * 1024 }] *)
Definition upload_limit : Z := 25 * 1024 * 1024.

(** [upload.single('photo')] followed by the handler. [file_uuid] is the
    [uuidv4()] of the storage [filename] callback, [record_uuid] the one of
    [uploadData.id]; [now] is [new Date().toISOString()]. [None] is a request
    without a "photo" file, where [req.file] is undefined. The file filter
    runs first; the size limit is enforced while the file is stored: busboy
    (behind multer) stops the file with a 'limit' event as soon as the bytes
    received reach [fileSize], so a file of exactly 25 MiB is refused. *)
Definition upload_route (file_uuid record_uuid now : string) (part : option file_part)
    (uploads : list upload_record) : upload_response * list upload_record :=
  match part with
  | None => (UStatus 400 "No file uploaded", uploads)
  | Some f =>
      if negb (existsb (String.eqb (fp_mimetype f)) allowedTypes)
      then (UMiddlewareError "Invalid file type", uploads)
      else if upload_limit <=? fp_size f
      then (UMiddlewareError "File too large", uploads)
      else
        let filename := file_uuid ++ "-" ++ fp_originalname f in
        let r := {| u_id := record_uuid; u_filename := filename;
                    u_originalName := fp_originalname f;
                    u_path := "uploads/" ++ filename; u_size := fp_size f;
                    u_uploadedAt := now |} in
        (UOk record_uuid filename ("/uploads/" ++ filename), (uploads ++ [r])%list)
  end.

(** The path part of the "Photo URL" line of [sendInternalNotification]:
    [${BASE_URL}/uploads/${order.uploadId}]. *)
Definition internal_photo_path (o : order) : string :=
  "/uploads/" ++ js_to_string (o_uploadId o).

(** ** [GET /api/order/:sessionId] *)

(** The fields of [stripe.checkout.sessions.retrieve(id)] the handler reads. *)
Record retrieved_session := {
  rs_payment_status : jsval;
  rs_customer_email : jsval
}.

Inductive order_response :=
| OStatus (code : Z) (message : string)
| OFound (o : order) (paymentStatus customerEmail : jsval).

(** [retrieve] is [stripe.checkout.sessions.retrieve], [None] when it throws;
    it is called before the store is searched. *)
Definition get_order (retrieve : string -> option retrieved_session)
    (sessionId : string) (st : state) : order_response :=
  match retrieve sessionId with
  | None => OStatus 500 "Failed to fetch order"
  | Some s =>
      match find (fun o => String.eqb (o_stripeSessionId o) sessionId) (orders st) with
      | None => OStatus 404 "Order not found"
      | Some o => OFound o (rs_payment_status s) (rs_customer_email s)
      end
  end.

(** ** [GET /api/admin/orders] *)

(** [db.data.orders.sort((a, b) => new Date(b.createdAt) - new Date(a.createdAt))]
    sorts the store in place. [date_value] is the time value of a
    [createdAt] string; every [createdAt] comes from [toISOString()], so the
    comparator is a consistent total preorder, and [Array.prototype.sort]
    (stable) then has exactly one possible result, the one of the stable
    insertion sort below: an element goes after every earlier element that
    is not older than it. *)
Fixpoint insert_newest_first (date_value : string -> Z) (o : order) (l : list order)
  : list order :=
  match l with
  | x :: r =>
      if date_value (o_createdAt o) <=? date_value (o_createdAt x)
      then x :: insert_newest_first date_value o r
      else o :: x :: r
  | [] => [o]
  end.

Definition sort_newest_first (date_value : string -> Z) (l : list order) : list order :=
  fold_left (fun acc o => insert_newest_first date_value o acc) l [].

(** The handler: the answer's [orders] and the store after the request. *)
Definition list_orders (date_value : string -> Z) (st : state) : list order * state :=
  let os := sort_newest_first date_value (orders st) in
  (os, set_orders st os).

(** [a] may precede [b] in the newest-first order. *)
Definition newer_or_same (date_value : string -> Z) (a b : order) : Prop :=
  date_value (o_createdAt b) <= date_value (o_createdAt a).

(** Every field of an order except [status] and [updatedAt]. *)
Definition erase_status (o : order) : order := set_status JUndefined "" o.

(** A PNG photo of 2 KiB. *)
Definition photo_png : file_part :=
  {| fp_originalname := "tree.png"; fp_mimetype := "image/png"; fp_size := 2048 |}.

(** Stripe's answer for a paid session. *)
Definition paid_retrieve (sid : string) : option retrieved_session :=
  Some {| rs_payment_status := JStr "paid"; rs_customer_email := JStr "ann@example.com" |}.

(** Variants of [body_print2]. *)
Definition with_tier (t : jsval) (b : checkout_body) : checkout_body :=
  {| b_vibe := b_vibe b; b_tier := t; b_quantity := b_quantity b;
     b_uploadId := b_uploadId b; b_customerName := b_customerName b;
     b_customerEmail := b_customerEmail b; b_customerPhone := b_customerPhone b;
     b_shippingAddress := b_shippingAddress b; b_notes := b_notes b |}.

Definition with_quantity (q : jsval) (b : checkout_body) : checkout_body :=
  {| b_vibe := b_vibe b; b_tier := b_tier b; b_quantity := q;
     b_uploadId := b_uploadId b; b_customerName := b_customerName b;
     b_customerEmail := b_customerEmail b; b_customerPhone := b_customerPhone b;
     b_shippingAddress := b_shippingAddress b; b_notes := b_notes b |}.

Definition with_email (e : jsval) (b : checkout_body) : checkout_body :=
  {| b_vibe := b_vibe b; b_tier := b_tier b; b_quantity := b_quantity b;
     b_uploadId := b_uploadId b; b_customerName := b_customerName b;
     b_customerEmail := e; b_customerPhone := b_customerPhone b;
     b_shippingAddress := b_shippingAddress b; b_notes := b_notes b |}.

Definition with_upload (u : jsval) (b : checkout_body) : checkout_body :=
  {| b_vibe := b_vibe b; b_tier := b_tier b; b_quantity := b_quantity b;
     b_uploadId := u; b_customerName := b_customerName b;
     b_customerEmail := b_customerEmail b; b_customerPhone := b_customerPhone b;
     b_shippingAddress := b_shippingAddress b; b_notes := b_notes b |}.

Definition order1 : order := build_order (echo_processor "cs_1" print2_request) "t0".

(** A store holding the order of the print/2 checkout. *)
Definition store1 : state :=
  {| orders := [order1];
     outbox := []; log := [] |}.

(** The status mail [sendStatusUpdate] hands to the transport. *)
Definition status_mail (o : order) (s : string) : mail :=
  {| m_kind := StatusUpdate (to_upper s) (js_lookup statusMessages s);
     m_to := ToCustomer (o_customerEmail o);
     m_order := o_id o |}.

(** [quantity] as the intent holds it, [None] for a non-number. *)
Definition quantity_value (v : jsval) : option Z :=
  match v with JNum q => Some q | _ => None end.

(** The round trip as the spec states it: every field of the intent comes
    back unchanged in the materialized order. *)
Definition round_trips (process : session_request -> session)
    (orderId now : string) (b : checkout_body) : Prop :=
  exists req, checkout_step orderId b = inr req /\
  let o := build_order (process req) now in
  o_vibe o = b_vibe b /\ o_tier o = b_tier b /\
  o_quantity o = quantity_value (b_quantity b) /\
  o_uploadId o = b_uploadId b /\ o_customerName o = b_customerName b /\
  o_customerEmail o = b_customerEmail b /\
  o_customerPhone o = b_customerPhone b /\
  o_shippingAddress o = b_shippingAddress b /\ o_notes o = b_notes b.

Definition body_huge_qty : checkout_body :=
  {| b_vibe := JStr "elf"; b_tier := JStr "print"; b_quantity := JNum (10 ^ 21);
     b_uploadId := JStr "up-1"; b_customerName := JStr "Ann";
     b_customerEmail := JStr "ann@example.com"; b_customerPhone := JUndefined;
     b_shippingAddress := JStr "1 Main St"; b_notes := JUndefined |}.

Definition refund_event : event :=
  {| ev_type := "charge.refunded"; ev_object := echo_processor "cs_1" print2_request |}.

(** A double quote. *)
Definition dq : string := String (ascii_of_nat 34) EmptyString.

(** The JSON body of a Stripe event of type [ty] (abridged). *)
Definition event_body (ty : string) : string :=
  "{" ++ dq ++ "type" ++ dq ++ ":" ++ dq ++ ty ++ dq ++ "}".

(** A delivery by Stripe: a JSON body with its signature header. *)
Definition stripe_request (ty : string) : http_request :=
  {| rq_has_body := true; rq_json_type := true; rq_utf_charset := true;
     rq_raw := event_body ty; rq_sig := Some "t=1,v1=good" |}.

Definition sample_body (s : string) : bool :=
  String.eqb s (event_body "checkout.session.completed")
  || String.eqb s (event_body "charge.refunded").

(** [JSON.parse] on the sample bodies. *)
Definition sample_json_parse (s : string) : option json_top :=
  if sample_body s then Some JsonObject else None.

(** The signature check of the webhook secret: it holds for the bytes of the
    sample bodies with the header Stripe sent. *)
Definition sample_signature_ok (payload : string) (sig : option string) : bool :=
  sample_body payload && match sig with Some "t=1,v1=good" => true | _ => false end.

Definition sample_parse_event (payload : string) : option event :=
  if String.eqb payload (event_body "checkout.session.completed") then Some print2_event
  else if String.eqb payload (event_body "charge.refunded") then Some refund_event
  else None.

(** Validity of a concrete intent. *)
Ltac prove_valid :=
  unfold valid_intent, optional_string; simpl;
  repeat match goal with
  | |- _ /\ _ => split
  | |- exists _, _ = _ /\ _ => eexists; split; [reflexivity|]
  | |- _ <> _ => discriminate
  | |- 0 < _ => lia
  | |- ?a = ?a \/ _ => left; reflexivity
  | |- _ \/ exists _, _ = _ => right; eexists; reflexivity
  | |- _ = _ \/ _ => right
  end.

Example number_to_string_small : number_to_string 37800 = "37800".
Proof. reflexivity. Qed.

Example number_to_string_1e21 : number_to_string (10 ^ 21) = "1e+21".
Proof. vm_compute. reflexivity. Qed.

Example parse_int_exp : parse_int "1e+21" = Some 1.
Proof. vm_compute. reflexivity. Qed.

Example lookup_inherited : js_lookup PRODUCTS "constructor" = Inherited "constructor".
Proof. reflexivity. Qed.

(** ** [parseInt] inverts [Number::toString] below 10^21 *)

Lemma digit_prefix_uint (u : Decimal.uint) :
  digit_prefix (NilEmpty.string_of_uint u) = NilEmpty.string_of_uint u.
Proof. induction u; simpl; rewrite ?IHu; reflexivity. Qed.

Lemma digit_not_ws (c : ascii) : is_digit c = true -> is_ws c = false.
Proof.
  unfold is_digit, is_ws. intros H.
  apply andb_true_iff in H as [H1 H2].
  apply Nat.leb_le in H1, H2.
  destruct (existsb _ _) eqn:E; [|reflexivity].
  simpl in E. repeat rewrite orb_true_iff in E.
  repeat rewrite Nat.eqb_eq in E. lia.
Qed.

Lemma digit_prefix_cons (c : ascii) (r : string) :
  digit_prefix (String c r) = String c r -> is_digit c = true.
Proof. simpl. destruct (is_digit c); congruence. Qed.

Lemma parse_int_all_digits (c : ascii) (r : string) :
  digit_prefix (String c r) = String c r ->
  parse_int (String c r) =
    match NilEmpty.uint_of_string (String c r) with
    | Some u => double_round (Z.of_N (N.of_uint u))
    | None => None
    end.
Proof.
  intros Hd. pose proof (digit_prefix_cons c r Hd) as Hc.
  unfold parse_int. simpl trim_start. rewrite (digit_not_ws c Hc).
  assert (Hm : Ascii.eqb c "-"%char = false).
  { destruct (Ascii.eqb_spec c "-"%char); [subst; discriminate | reflexivity]. }
  assert (Hp : Ascii.eqb c "+"%char = false).
  { destruct (Ascii.eqb_spec c "+"%char); [subst; discriminate | reflexivity]. }
  rewrite Hm, Hp.
  assert (Hgen : match digit_prefix (String c r) with
                 | EmptyString => None
                 | p => match NilEmpty.uint_of_string p with
                        | Some u => double_round (1 * Z.of_N (N.of_uint u))
                        | None => None
                        end
                 end =
                 match NilEmpty.uint_of_string (String c r) with
                 | Some u => double_round (Z.of_N (N.of_uint u))
                 | None => None
                 end).
  { rewrite Hd. destruct (NilEmpty.uint_of_string (String c r)); [|reflexivity].
    rewrite Z.mul_1_l. reflexivity. }
  destruct r as [|x r'].
  - exact Hgen.
  - simpl in Hd. rewrite Hc in Hd. injection Hd as Hd.
    pose proof (digit_prefix_cons x r' Hd) as Hx.
    assert (Hxx : Ascii.eqb x "x"%char = false).
    { destruct (Ascii.eqb_spec x "x"%char); [subst; discriminate | reflexivity]. }
    assert (HxX : Ascii.eqb x "X"%char = false).
    { destruct (Ascii.eqb_spec x "X"%char); [subst; discriminate | reflexivity]. }
    rewrite Hxx, HxX, andb_false_r. exact Hgen.
Qed.

Lemma parse_int_uint (u : Decimal.uint) :
  u <> Decimal.Nil ->
  parse_int (NilEmpty.string_of_uint u) = double_round (Z.of_N (N.of_uint u)).
Proof.
  intros Hu.
  assert (H : exists c r, NilEmpty.string_of_uint u = String c r)
    by (destruct u; [contradiction | eexists; eexists; reflexivity ..]).
  destruct H as (c & r & E).
  rewrite E, parse_int_all_digits, <- E, NilEmpty.usu by (rewrite <- E; apply digit_prefix_uint).
  reflexivity.
Qed.

Lemma to_uint_not_nil (n : N) : N.to_uint n <> Decimal.Nil.
Proof.
  intros E. pose proof (DecimalN.Unsigned.of_to n) as H. rewrite E in H.
  destruct n as [|p]; [discriminate|]. simpl in H. discriminate.
Qed.

Lemma parse_int_dec_N (n : N) :
  parse_int (dec_N n) = double_round (Z.of_N n).
Proof.
  unfold dec_N. rewrite parse_int_uint by apply to_uint_not_nil.
  rewrite DecimalN.Unsigned.of_to. reflexivity.
Qed.

(** *** Rounding to a double *)

Lemma pow2_pos (k : Z) : 0 <= k -> 0 < 2 ^ k.
Proof. intros. apply Z.pow_pos_nonneg; lia. Qed.

Lemma round_pos_small (y : Z) : 0 < y -> Z.log2 y < 53 -> round_pos y = y.
Proof. intros _ H. unfold round_pos. rewrite (proj2 (Z.ltb_lt _ _) H). reflexivity. Qed.

(** Above 2^53 the result is a neighbouring multiple of the unit in the last
    place, [2 ^ (log2 y - 52)]. *)
Lemma round_pos_between (y : Z) :
  0 < y -> 53 <= Z.log2 y ->
  let u := 2 ^ (Z.log2 y - 52) in
  y / u * u <= round_pos y <= (y / u + 1) * u.
Proof.
  intros Hy Hl u. unfold round_pos. fold u.
  rewrite (proj2 (Z.ltb_ge _ _) Hl).
  assert (Hu : 0 < u) by (apply pow2_pos; lia).
  destruct (_ || _); nia.
Qed.

Lemma double_round_pos (y q : Z) :
  0 < y -> double_round y = Some q -> q = round_pos y.
Proof.
  unfold double_round. intros Hy. rewrite Z.abs_eq by lia.
  destruct (_ <=? _); [discriminate|]. intros [= <-]. rewrite Z.sgn_pos by lia. lia.
Qed.

Lemma double_round_exact (x : Z) : 0 <= x <= 2 ^ 53 -> double_round x = Some x.
Proof.
  intros Hx. destruct (Z.eq_dec x (2 ^ 53)) as [->|Hne]; [reflexivity|].
  unfold double_round. rewrite Z.abs_eq by lia.
  destruct (Z.eq_dec x 0) as [->|Hnz]; [reflexivity|].
  assert (Hl : Z.log2 x < 53) by (apply Z.log2_lt_pow2; lia).
  rewrite round_pos_small by lia.
  replace (2 ^ 1024 <=? x) with false by (symmetry; apply Z.leb_gt; lia).
  rewrite Z.sgn_pos by lia. f_equal. lia.
Qed.

Lemma log2_ge (y k : Z) : 0 <= k -> 2 ^ k <= y -> k <= Z.log2 y.
Proof.
  intros Hk H. destruct (Z.le_gt_cases k (Z.log2 y)) as [|Hlt]; [assumption|].
  pose proof (Z.log2_spec y ltac:(pose proof (pow2_pos k Hk); lia)) as [_ Hs].
  assert (2 ^ Z.succ (Z.log2 y) <= 2 ^ k) by (apply Z.pow_le_mono_r; lia). lia.
Qed.

Lemma log2_lt (y k : Z) : 0 < y -> y < 2 ^ k -> Z.log2 y < k.
Proof.
  intros Hy H. destruct (Z.lt_ge_cases (Z.log2 y) k) as [|Hge]; [assumption|].
  pose proof (Z.log2_spec y Hy) as [Hs _].
  assert (2 ^ k <= 2 ^ Z.log2 y) by (apply Z.pow_le_mono_r; lia). lia.
Qed.

(** [10 ^ 21] is a double, [7629394531250000 * 2 ^ 17]: rounding keeps
    each side of it. *)
Lemma round_pos_ge_1e21 (y : Z) : 10 ^ 21 <= y -> 10 ^ 21 <= round_pos y.
Proof.
  intros Hy.
  assert (H69 : 69 <= Z.log2 y) by (apply log2_ge; [lia | lia]).
  pose proof (round_pos_between y ltac:(lia) ltac:(lia)) as [Hlo _].
  destruct (Z.eq_dec (Z.log2 y) 69) as [E|Hne].
  - rewrite E in Hlo. replace (2 ^ (69 - 52)) with 131072 in Hlo by reflexivity.
    change (10 ^ 21) with 1000000000000000000000 in *.
    assert (7629394531250000 <= y / 131072) by (apply Z.div_le_lower_bound; lia). lia.
  - set (sh := Z.log2 y - 52) in Hlo.
    assert (Hsh : 18 <= sh) by (unfold sh; lia).
    assert (Hy2 : 2 ^ 52 * 2 ^ sh <= y).
    { rewrite <- Z.pow_add_r by lia. unfold sh.
      replace (52 + (Z.log2 y - 52)) with (Z.log2 y) by lia.
      apply Z.log2_spec. lia. }
    assert (Hp : 0 < 2 ^ sh) by (apply pow2_pos; lia).
    assert (2 ^ 52 <= y / 2 ^ sh) by (apply Z.div_le_lower_bound; lia).
    assert (2 ^ 18 <= 2 ^ sh) by (apply Z.pow_le_mono_r; lia). nia.
Qed.

Lemma round_pos_le_1e21 (y : Z) : 0 < y < 10 ^ 21 -> round_pos y <= 10 ^ 21.
Proof.
  intros Hy.
  assert (H70 : Z.log2 y < 70) by (apply log2_lt; lia).
  destruct (Z.lt_ge_cases (Z.log2 y) 53) as [Hs|Hl].
  - rewrite round_pos_small by lia. lia.
  - pose proof (round_pos_between y ltac:(lia) Hl) as [_ Hhi].
    set (sh := Z.log2 y - 52) in Hhi.
    assert (Hsplit : 2 ^ 17 = 2 ^ (17 - sh) * 2 ^ sh)
      by (rewrite <- Z.pow_add_r by (unfold sh; lia); f_equal; lia).
    assert (Hp : 0 < 2 ^ sh) by (apply pow2_pos; unfold sh; lia).
    assert (Hc : 10 ^ 21 = (2 ^ (17 - sh) * 7629394531250000) * 2 ^ sh)
      by (rewrite <- Z.mul_assoc, (Z.mul_comm 7629394531250000), Z.mul_assoc, <- Hsplit;
          reflexivity).
    assert (y / 2 ^ sh < 2 ^ (17 - sh) * 7629394531250000)
      by (apply Z.div_lt_upper_bound; lia).
    nia.
Qed.

(** *** Printing and reading back a quantity *)

Lemma fold_closer_in (x : Z) (cs : list (Z * Z)) (c : Z * Z) :
  In (fold_left (closer x) cs c) (c :: cs).
Proof.
  revert c. induction cs as [|c' cs IH]; intros c; simpl; [left; reflexivity|].
  destruct (IH (closer x c c')) as [E|Hin].
  - rewrite <- E. unfold closer.
    destruct (_ <? _); [left; reflexivity|]. destruct (_ <? _); [right; left; reflexivity|].
    destruct (Z.even _); [left | right; left]; reflexivity.
  - right; right; exact Hin.
Qed.

Lemma shortest_from_spec (x k : Z) (fuel : nat) :
  0 < x -> double_round x = Some x -> 1 <= k ->
  let '(s, e) := shortest_from x k fuel in
  double_round (s * 10 ^ e) = Some x /\ 0 < s /\ 0 <= e.
Proof.
  intros Hx Hd. revert k. induction fuel as [|f IH]; intros k Hk; cbn [shortest_from].
  - change (10 ^ 0) with 1. rewrite Z.mul_1_r. auto with zarith.
  - destruct (filter (digits_denote x k) (digit_candidates x k)) as [|c cs] eqn:E.
    + apply IH. lia.
    + assert (Hin : In (fold_left (closer x) cs c) (filter (digits_denote x k) (digit_candidates x k)))
        by (rewrite E; apply fold_closer_in).
      apply filter_In in Hin as [_ Hok].
      destruct (fold_left (closer x) cs c) as [s e]. unfold digits_denote in Hok.
      apply andb_true_iff in Hok as [Hok Hr]. apply andb_true_iff in Hok as [Hok He].
      apply andb_true_iff in Hok as [Hs _]. apply Z.leb_le in Hs, He.
      assert (0 < 10 ^ (k - 1)) by (apply Z.pow_pos_nonneg; lia).
      destruct (double_round (s * 10 ^ e)) as [y|]; [|discriminate].
      apply Z.eqb_eq in Hr. subst. split; [reflexivity | lia].
Qed.

Lemma shortest_digits_spec (x : Z) :
  0 < x -> double_round x = Some x ->
  let '(s, e) := shortest_digits x in
  double_round (s * 10 ^ e) = Some x /\ 0 < s /\ 0 <= e.
Proof. intros. apply shortest_from_spec; auto with zarith. Qed.

(** Below 10^21, [parseInt(q.toString())] is [q]. *)
Lemma parse_int_number_to_string (q : Z) :
  0 < q < 10 ^ 21 -> double_round q = Some q ->
  parse_int (number_to_string q) = Some q.
Proof.
  intros Hq Hd. unfold number_to_string.
  replace (q =? 0) with false by (symmetry; apply Z.eqb_neq; lia).
  rewrite Z.abs_eq by lia.
  pose proof (shortest_digits_spec q ltac:(lia) Hd) as Hs.
  destruct (shortest_digits q) as [s e]. destruct Hs as (Hr & Hspos & He).
  assert (Hpos : 0 < s * 10 ^ e) by (pose proof (Z.pow_pos_nonneg 10 e ltac:(lia) He); nia).
  destruct (s * 10 ^ e <? 10 ^ 21) eqn:Hlt.
  - replace (q <? 0) with false by (symmetry; apply Z.ltb_ge; lia).
    rewrite parse_int_dec_N, Z2N.id by lia. exact Hr.
  - apply Z.ltb_ge in Hlt. apply double_round_pos in Hr; [|exact Hpos].
    pose proof (round_pos_ge_1e21 _ Hlt). lia.
Qed.

Lemma parse_int_leading_digit (h c : ascii) (r : string) :
  is_digit h = true -> is_digit c = false ->
  Ascii.eqb c "x"%char = false -> Ascii.eqb c "X"%char = false ->
  exists d, parse_int (String h (String c r)) = Some d /\ 0 <= d <= 9.
Proof.
  intros Hh Hc Hx HX.
  unfold parse_int. simpl trim_start. rewrite (digit_not_ws h Hh).
  assert (Hm : Ascii.eqb h "-"%char = false).
  { destruct (Ascii.eqb_spec h "-"%char); [subst; discriminate | reflexivity]. }
  assert (Hp : Ascii.eqb h "+"%char = false).
  { destruct (Ascii.eqb_spec h "+"%char); [subst; discriminate | reflexivity]. }
  rewrite Hm, Hp, Hx, HX, andb_false_r. simpl digit_prefix. rewrite Hh, Hc.
  clear Hm Hp Hx HX Hc.
  destruct h as [[] [] [] [] [] [] [] []]; try discriminate Hh;
    eexists; (split; [cbv; reflexivity | lia]).
Qed.

Lemma dec_N_digits (n : N) : exists h rest, dec_N n = String h rest /\ is_digit h = true.
Proof.
  unfold dec_N. pose proof (digit_prefix_uint (N.to_uint n)) as Hd.
  pose proof (to_uint_not_nil n) as Hn.
  destruct (NilEmpty.string_of_uint (N.to_uint n)) as [|h rest] eqn:E.
  - destruct (N.to_uint n); [contradiction | discriminate ..].
  - exists h, rest. split; [reflexivity|]. apply (digit_prefix_cons h rest Hd).
Qed.

(** From 10^21 on, [q.toString()] is in exponential form and [parseInt]
    reads back its first digit only. *)
Lemma parse_int_number_to_string_large (q : Z) :
  10 ^ 21 <= q -> double_round q = Some q ->
  exists d, parse_int (number_to_string q) = Some d /\ 0 <= d <= 9.
Proof.
  intros Hq Hd. unfold number_to_string.
  change (10 ^ 21) with 1000000000000000000000 in *.
  replace (q =? 0) with false by (symmetry; apply Z.eqb_neq; lia).
  replace (q <? 0) with false by (symmetry; apply Z.ltb_ge; lia).
  rewrite Z.abs_eq by lia.
  pose proof (shortest_digits_spec q ltac:(lia) Hd) as Hs.
  destruct (shortest_digits q) as [s e] eqn:Esd. destruct Hs as (Hr & Hspos & He).
  assert (Hpos : 0 < s * 10 ^ e) by (pose proof (Z.pow_pos_nonneg 10 e ltac:(lia) He); nia).
  destruct (s * 10 ^ e <? 1000000000000000000000) eqn:Hlt.
  - exfalso. apply Z.ltb_lt in Hlt. apply double_round_pos in Hr; [|exact Hpos].
    pose proof (round_pos_le_1e21 (s * 10 ^ e)) as Hle.
    change (10 ^ 21) with 1000000000000000000000 in Hle.
    specialize (Hle (conj Hpos Hlt)). rewrite <- Hr in Hle.
    assert (Eq : q = 1000000000000000000000) by (apply Z.le_antisymm; assumption).
    rewrite Eq in Esd.
    vm_compute in Esd. injection Esd as <- <-.
    change (1 * 10 ^ 21) with 1000000000000000000000 in Hlt.
    exact (Z.lt_irrefl _ Hlt).
  - unfold exp_form. destruct (dec_N_digits (Z.to_N s)) as (h & rest & E & Hh).
    rewrite E. destruct (String.eqb rest "").
    + apply parse_int_leading_digit; auto.
    + apply parse_int_leading_digit; auto.
Qed.

(** ** Checkout of a valid intent *)

Lemma truthy_nonempty (s : string) : s <> "" -> truthy (JStr s) = true.
Proof. intros H. simpl. apply negb_true_iff, String.eqb_neq, H. Qed.

Lemma valid_not_missing (b : checkout_body) :
  valid_intent b -> missing_required b = false.
Proof.
  intros ((v & Ev & Hv) & (t & Et & Ht) & (q & Eq & Hq) & (u & Eu & Hu) &
          (n & En & Hn) & (e & Ee & He) & _).
  unfold missing_required. rewrite Ev, Et, Eq, Eu, En, Ee.
  rewrite !truthy_nonempty; try assumption.
  - simpl. replace (q =? 0) with false by (symmetry; apply Z.eqb_neq; lia). reflexivity.
  - revert Ht; clear; intros [<-|[<-|[<-|[]]]]; discriminate.
  - revert Hv; clear; intros [<-|[<-|[<-|[]]]]; discriminate.
Qed.

Lemma valid_tier_own (b : checkout_body) :
  valid_intent b -> exists p, js_lookup PRODUCTS (to_key (b_tier b)) = Own p.
Proof.
  intros (_ & (t & Et & [<-|[<-|[<-|[]]]]) & _); rewrite Et; eexists; reflexivity.
Qed.

Lemma valid_vibe_own (b : checkout_body) :
  valid_intent b -> exists v, js_lookup VIBES (to_key (b_vibe b)) = Own v.
Proof.
  intros ((t & Et & [<-|[<-|[<-|[]]]]) & _); rewrite Et; eexists; reflexivity.
Qed.

(** For a valid intent, validation passes and the request is built from it. *)
Lemma checkout_step_valid (orderId : string) (b : checkout_body) :
  valid_intent b ->
  exists p, js_lookup PRODUCTS (to_key (b_tier b)) = Own p /\
  checkout_step orderId b = inr {|
      sr_unit_amount := JNum (price p);
      sr_quantity := b_quantity b;
      sr_customer_email := b_customerEmail b;
      sr_metadata :=
        [("orderId", JStr orderId); ("vibe", b_vibe b); ("tier", b_tier b);
         ("quantity", JStr (js_to_string (b_quantity b)));
         ("uploadId", b_uploadId b); ("customerName", b_customerName b);
         ("customerPhone", or_empty (b_customerPhone b));
         ("shippingAddress", or_empty (b_shippingAddress b));
         ("notes", or_empty (b_notes b))] |}.
Proof.
  intros Hv. destruct (valid_tier_own b Hv) as [p Ep].
  destruct (valid_vibe_own b Hv) as [v Evb].
  exists p. split; [exact Ep|].
  unfold checkout_step. rewrite (valid_not_missing b Hv), Ep, Evb. reflexivity.
Qed.

Lemma or_empty_str (v : jsval) : optional_string v -> exists s, or_empty v = JStr s.
Proof.
  intros [-> | [s ->]]; unfold or_empty; [|destruct (truthy (JStr s))];
    eexists; reflexivity.
Qed.

Lemma meta_echo (process : session_request -> session) (r : session_request)
    (k v : string) :
  processor_ok process ->
  assoc k (sr_metadata r) = Some (JStr v) ->
  meta_get k (s_metadata (process r)) = JStr v.
Proof. intros (_ & Hm & _) H. unfold meta_get. rewrite (Hm r k v H). reflexivity. Qed.

Lemma echo_processor_ok (sid : string) : processor_ok (echo_processor sid).
Proof.
  split; [|split].
  - reflexivity.
  - intros r k v. unfold echo_processor; simpl.
    induction (sr_metadata r) as [|[k' v'] l IH]; simpl; [discriminate|].
    destruct (String.eqb k k'); [intros [= ->]; reflexivity | exact IH].
  - intros r u q Hu Hq. unfold echo_processor; simpl. rewrite Hu, Hq. reflexivity.
Qed.

(** ** C3: round trip of the checkout intent through the session metadata *)




Example checkout_print2 : checkout_step "ord-1" body_print2 = inr print2_request.
Proof. reflexivity. Qed.

(** ** The webhook: notifier helpers *)

Lemma send_orders (mailer : mail -> bool) (m : mail) (err : string) (st : state) :
  orders (send mailer m err st) = orders st.
Proof. unfold send. destruct (mailer m); reflexivity. Qed.

Lemma sendOrderConfirmation_orders mailer o st st' :
  sendOrderConfirmation mailer o st = Some st' -> orders st' = orders st.
Proof.
  unfold sendOrderConfirmation. destruct (js_lookup _ _); intros [= <-]; apply send_orders.
Qed.

Lemma sendInternalNotification_orders mailer o st st' :
  sendInternalNotification mailer o st = Some st' -> orders st' = orders st.
Proof.
  unfold sendInternalNotification. destruct (js_lookup _ _); intros [= <-]; apply send_orders.
Qed.

(** A completed, verified event always appends exactly the order built from it,
    whatever the notifier does afterwards. *)
Lemma webhook_completed_orders ce mailer now payload sig st ev :
  ce payload sig = Some ev ->
  ev_type ev = "checkout.session.completed" ->
  orders (snd (webhook ce mailer now payload sig st)) =
    (orders st ++ [build_order (ev_object ev) now])%list.
Proof.
  intros Hce Ht. unfold webhook. rewrite Hce, Ht. simpl String.eqb. cbv iota.
  destruct (sendOrderConfirmation _ _ _) as [st2|] eqn:E2; [|reflexivity].
  apply sendOrderConfirmation_orders in E2.
  destruct (sendInternalNotification _ _ _) as [st3|] eqn:E3.
  - apply sendInternalNotification_orders in E3. simpl. rewrite E3, E2. reflexivity.
  - simpl. rewrite E2. reflexivity.
Qed.

(** ** The webhook behind the body parsers *)

(** [JSON.parse("[object Object]")] throws: after "[" comes "o". *)
Lemma json_may_parse_object : json_may_parse "[object Object]" = false.
Proof. reflexivity. Qed.

Lemma construct_event_object signature_ok parse_event sig :
  construct_event signature_ok parse_event "[object Object]" sig = None.
Proof.
  unfold construct_event. rewrite json_may_parse_object, andb_false_r. reflexivity.
Qed.

Lemma webhook_object_body ce_ok parse_event mailer now sig st :
  webhook (construct_event ce_ok parse_event) mailer now "[object Object]" sig st =
    (RStatus 400 "Webhook Error", set_log st (log st ++ ["Webhook error:"])).
Proof. unfold webhook. rewrite construct_event_object. reflexivity. Qed.

(** Whatever the request, unless [JSON.parse] makes an array of its body,
    [req.body] reaches [constructEvent] as a parsed object (or a parser
    answers first): the answer is a 4xx and the orders and mails stay. *)
Lemma webhook_route_rejects signature_ok parse_event json_parse mailer now rq st :
  (forall j, json_parse (rq_raw rq) <> Some (JsonArray j)) ->
  exists code msg,
    fst (webhook_route signature_ok parse_event json_parse mailer now rq st) = RStatus code msg /\
    400 <= code < 500 /\
    orders (snd (webhook_route signature_ok parse_event json_parse mailer now rq st)) = orders st /\
    outbox (snd (webhook_route signature_ok parse_event json_parse mailer now rq st)) = outbox st.
Proof.
  intros Harr. unfold webhook_route, express_json, express_raw.
  destruct (rq_has_body rq), (rq_json_type rq);
    cbn [negb orb rb_parsed rb_body body_or_empty body_text];
    try (rewrite webhook_object_body; do 2 eexists; repeat split; lia).
  destruct (rq_utf_charset rq); cbn [negb];
    [|do 2 eexists; repeat split; lia].
  destruct (parser_limit <? Z.of_nat (String.length (rq_raw rq)));
    [do 2 eexists; repeat split; lia|].
  destruct (String.eqb (rq_raw rq) "").
  { cbn [rb_parsed rb_body body_text]. rewrite webhook_object_body.
    do 2 eexists. repeat split; lia. }
  destruct (json_parse (rq_raw rq)) as [[|j]|] eqn:Ej.
  - cbn [rb_parsed rb_body body_text]. rewrite webhook_object_body.
    do 2 eexists. repeat split; lia.
  - exfalso. exact (Harr j eq_refl).
  - do 2 eexists. repeat split; lia.
Qed.

Lemma webhook_route_orders signature_ok parse_event json_parse mailer now rq st :
  (forall j, json_parse (rq_raw rq) <> Some (JsonArray j)) ->
  orders (snd (webhook_route signature_ok parse_event json_parse mailer now rq st)) = orders st /\
  outbox (snd (webhook_route signature_ok parse_event json_parse mailer now rq st)) = outbox st.
Proof.
  intros H. destruct (webhook_route_rejects signature_ok parse_event json_parse mailer now rq st H)
    as (code & msg & _ & _ & Ho & Hm). split; assumption.
Qed.

Lemma deliver_all_orders signature_ok parse_event json_parse mailer now rqs st :
  Forall (fun rq => forall j, json_parse (rq_raw rq) <> Some (JsonArray j)) rqs ->
  orders (deliver_all signature_ok parse_event json_parse mailer now rqs st) = orders st /\
  outbox (deliver_all signature_ok parse_event json_parse mailer now rqs st) = outbox st.
Proof.
  intros H. revert st. unfold deliver_all.
  induction H as [|rq rqs Hrq _ IH]; intros st; simpl; [split; reflexivity|].
  destruct (IH (snd (webhook_route signature_ok parse_event json_parse mailer now rq st)))
    as [IH1 IH2].
  destruct (webhook_route_orders signature_ok parse_event json_parse mailer now rq st Hrq)
    as [H1 H2].
  split; congruence.
Qed.

(** ** C1: repeated delivery of one completed event *)

(** C1 (code bug): through the route as deployed, no sequence of deliveries
    (Stripe's events are JSON objects) records an order or sends a mail. Two
    deliveries of the signed completed event for session "cs_1" leave no
    order for it, where the claim expects exactly one. *)
Theorem webhook_deliveries_record_nothing signature_ok parse_event json_parse mailer now rqs st :
  Forall (fun rq => forall j, json_parse (rq_raw rq) <> Some (JsonArray j)) rqs ->
  orders (deliver_all signature_ok parse_event json_parse mailer now rqs st) = orders st /\
  outbox (deliver_all signature_ok parse_event json_parse mailer now rqs st) = outbox st.
Proof. apply deliver_all_orders. Qed.

Lemma webhook_deliveries_record_nothing_witness :
  construct_event sample_signature_ok sample_parse_event
    (rq_raw (stripe_request "checkout.session.completed"))
    (rq_sig (stripe_request "checkout.session.completed")) = Some print2_event /\
  (orders (deliver_all sample_signature_ok sample_parse_event sample_json_parse all_mail_ok "t0"
             [stripe_request "checkout.session.completed";
              stripe_request "checkout.session.completed"] empty_state) = orders empty_state /\
   outbox (deliver_all sample_signature_ok sample_parse_event sample_json_parse all_mail_ok "t0"
             [stripe_request "checkout.session.completed";
              stripe_request "checkout.session.completed"] empty_state) = outbox empty_state).
Proof.
  split; [vm_compute; reflexivity|].
  apply webhook_deliveries_record_nothing.
  repeat constructor; intros j; vm_compute; discriminate.
Defined.

(** ** C2: events failing verification *)

(** C2: when [constructEvent] rejects the payload and signature, the handler
    answers 400 and leaves the orders and the sent mails as they were. *)
Theorem webhook_rejects_unverified ce mailer now payload sig st :
  ce payload sig = None ->
  fst (webhook ce mailer now payload sig st) = RStatus 400 "Webhook Error" /\
  orders (snd (webhook ce mailer now payload sig st)) = orders st /\
  outbox (snd (webhook ce mailer now payload sig st)) = outbox st.
Proof. intros H. unfold webhook. rewrite H. repeat split. Qed.

Lemma webhook_rejects_unverified_witness :
  fst (webhook (signed_by print2_event) all_mail_ok "t0" "{}" (Some "forged") empty_state)
    = RStatus 400 "Webhook Error" /\
  orders (snd (webhook (signed_by print2_event) all_mail_ok "t0" "{}" (Some "forged") empty_state))
    = orders empty_state /\
  outbox (snd (webhook (signed_by print2_event) all_mail_ok "t0" "{}" (Some "forged") empty_state))
    = outbox empty_state.
Proof. apply webhook_rejects_unverified. reflexivity. Defined.

(** ** C9: event types other than [checkout.session.completed] *)

(** C9 (code bug): a Stripe delivery (a JSON object body, within the parser
    limit) is answered 400 whatever its type, even when it is authentic:
    [express.json()] has already parsed the body, so [constructEvent] sees
    an object instead of the raw text. *)
Theorem webhook_route_rejects_stripe_events signature_ok parse_event json_parse mailer now rq st :
  rq_has_body rq = true -> rq_json_type rq = true -> rq_utf_charset rq = true ->
  Z.of_nat (String.length (rq_raw rq)) <= parser_limit ->
  json_parse (rq_raw rq) = Some JsonObject ->
  webhook_route signature_ok parse_event json_parse mailer now rq st =
    (RStatus 400 "Webhook Error", set_log st (log st ++ ["Webhook error:"])).
Proof.
  intros Hb Hj Hu Hl Hp. unfold webhook_route, express_json, express_raw.
  cbn [rb_parsed rb_body body_or_empty]. rewrite Hb, Hj, Hu. cbn [negb orb].
  replace (parser_limit <? Z.of_nat (String.length (rq_raw rq))) with false
    by (symmetry; apply Z.ltb_ge; exact Hl).
  destruct (String.eqb (rq_raw rq) ""); [|rewrite Hp];
    cbn [rb_parsed rb_body body_text]; apply webhook_object_body.
Qed.

Lemma webhook_route_rejects_stripe_events_witness :
  construct_event sample_signature_ok sample_parse_event
    (rq_raw (stripe_request "charge.refunded")) (rq_sig (stripe_request "charge.refunded"))
    = Some refund_event /\
  webhook_route sample_signature_ok sample_parse_event sample_json_parse all_mail_ok "t0"
    (stripe_request "charge.refunded") empty_state =
    (RStatus 400 "Webhook Error", set_log empty_state (log empty_state ++ ["Webhook error:"])).
Proof.
  split; [vm_compute; reflexivity|].
  apply webhook_route_rejects_stripe_events; vm_compute; try reflexivity; discriminate.
Defined.

(** ** C5: amount of a checkout *)

(** C5 (code bug): for a valid intent the code computes
    [price(tier) * quantity] as a double (the exact product up to 2^53), and
    sends the line item [unit_amount = price(tier)] times [quantity]; but the
    completed event Stripe then delivers records no order through the route
    as deployed. For tier "print" and quantity 2 the amount is 37800, and no
    order carrying it is stored. *)
Theorem checkout_amount_unrecorded signature_ok parse_event json_parse mailer now
    orderId b rq st :
  valid_intent b ->
  (forall j, json_parse (rq_raw rq) <> Some (JsonArray j)) ->
  exists p q req,
    js_lookup PRODUCTS (to_key (b_tier b)) = Own p /\ b_quantity b = JNum q /\
    total_amount (js_lookup PRODUCTS (to_key (b_tier b))) (b_quantity b) =
      double_round (price p * q) /\
    (price p * q <= 2 ^ 53 ->
     total_amount (js_lookup PRODUCTS (to_key (b_tier b))) (b_quantity b) =
       Some (price p * q)) /\
    checkout_step orderId b = inr req /\
    sr_unit_amount req = JNum (price p) /\ sr_quantity req = JNum q /\
    orders (snd (webhook_route signature_ok parse_event json_parse mailer now rq st)) =
      orders st.
Proof.
  intros Hv Harr.
  destruct (checkout_step_valid orderId b Hv) as (p & Ep & Estep).
  pose proof Hv as (_ & _ & (q & Eq & Hq) & _).
  exists p, q. eexists. split; [exact Ep|]. split; [exact Eq|].
  assert (Ht : total_amount (js_lookup PRODUCTS (to_key (b_tier b))) (b_quantity b) =
                 double_round (price p * q)) by (rewrite Ep, Eq; reflexivity).
  split; [exact Ht|]. split.
  { intros Hle. rewrite Ht. apply double_round_exact. split; [|exact Hle].
    assert (0 <= price p).
    { destruct Hv as (_ & (t & Et & Htier) & _). rewrite Et in Ep.
      destruct Htier as [<-|[<-|[<-|[]]]]; vm_compute in Ep; injection Ep as <-; cbn; lia. }
    nia. }
  split; [exact Estep|]. split; [reflexivity|]. split; [exact Eq|].
  apply webhook_route_orders, Harr.
Qed.

Lemma checkout_amount_unrecorded_witness :
  (exists p q req,
    js_lookup PRODUCTS (to_key (b_tier body_print2)) = Own p /\
    b_quantity body_print2 = JNum q /\
    total_amount (js_lookup PRODUCTS (to_key (b_tier body_print2))) (b_quantity body_print2) =
      double_round (price p * q) /\
    (price p * q <= 2 ^ 53 ->
     total_amount (js_lookup PRODUCTS (to_key (b_tier body_print2))) (b_quantity body_print2) =
       Some (price p * q)) /\
    checkout_step "ord-1" body_print2 = inr req /\
    sr_unit_amount req = JNum (price p) /\ sr_quantity req = JNum q /\
    orders (snd (webhook_route sample_signature_ok sample_parse_event sample_json_parse
                   all_mail_ok "t0" (stripe_request "checkout.session.completed") empty_state)) =
      orders empty_state) /\
  total_amount (js_lookup PRODUCTS "print") (JNum 2) = Some 37800 /\
  o_amount (build_order (ev_object print2_event) "t0") = JNum 37800.
Proof.
  split; [|split; vm_compute; reflexivity].
  apply checkout_amount_unrecorded.
  - prove_valid.
  - intros j. vm_compute. discriminate.
Defined.

(** ** C8: failing mail sends *)

(** C8: whatever the transport does with each mail, the webhook and the
    status update give the same response and leave the same orders as with
    a transport that accepts everything; a rejected mail is only logged. *)
Theorem notification_failures_contained ce (mailer : mail -> bool) now payload sig
    orderId status st :
  fst (webhook ce mailer now payload sig st) = fst (webhook ce all_mail_ok now payload sig st) /\
  orders (snd (webhook ce mailer now payload sig st)) =
    orders (snd (webhook ce all_mail_ok now payload sig st)) /\
  fst (patch_order mailer now orderId status st) =
    fst (patch_order all_mail_ok now orderId status st) /\
  orders (snd (patch_order mailer now orderId status st)) =
    orders (snd (patch_order all_mail_ok now orderId status st)) /\
  (forall m err st', mailer m = false ->
     send mailer m err st' = set_log st' (log st' ++ [err])%list).
Proof.
  split; [|split; [|split; [|split]]].
  - unfold webhook. destruct (ce payload sig); [|reflexivity].
    destruct (String.eqb _ _); [|reflexivity].
    unfold sendOrderConfirmation, sendInternalNotification.
    destruct (js_lookup PRODUCTS _); reflexivity.
  - unfold webhook. destruct (ce payload sig); [|reflexivity].
    destruct (String.eqb _ _); [|reflexivity].
    unfold sendOrderConfirmation, sendInternalNotification.
    destruct (js_lookup PRODUCTS _); simpl; rewrite ?send_orders; reflexivity.
  - unfold patch_order. destruct (find _ _) as [o|]; [|reflexivity].
    unfold sendStatusUpdate. cbn [o_id o_status set_status].
    destruct (o_id o), status; reflexivity.
  - unfold patch_order. destruct (find _ _) as [o|]; [|reflexivity].
    unfold sendStatusUpdate. cbn [o_id o_status set_status].
    destruct (o_id o), status; simpl; rewrite ?send_orders; reflexivity.
  - intros m err st' Hm. unfold send. rewrite Hm. reflexivity.
Qed.

(** ** C4 and C10: the status update *)

Lemma find_has_id orderId l o :
  find (has_id orderId) l = Some o -> o_id o = JStr orderId.
Proof.
  intros H. apply find_some in H as [_ H]. unfold has_id in H.
  destruct (o_id o); try discriminate. apply String.eqb_eq in H. subst. reflexivity.
Qed.

(** C4 (as stated) fails: with the status missing from the request body,
    the order is found but no status mail is sent and the answer is a 500. *)
Lemma C4_missing_status_counterexample :
  find (has_id "ord-1") (orders store1) <> None /\
  fst (patch_order all_mail_ok "t1" "ord-1" JUndefined store1)
    = RStatus 500 "Failed to update order" /\
  outbox (snd (patch_order all_mail_ok "t1" "ord-1" JUndefined store1)) = [].
Proof. vm_compute. split; [discriminate | split; reflexivity]. Qed.

(** C4 (amended): an unknown id gives 404 and an unchanged state. For a known
    id the first order with that id gets the new status and [updatedAt];
    for a string status the customer's status mail (upper-cased status and
    its [statusMessages] text) goes to the transport and the answer is the
    order; for any other value rendering the mail throws: no mail, answer
    500, the store change stays. *)
Theorem patch_order_behaviour (mailer : mail -> bool) now orderId status st :
  (find (has_id orderId) (orders st) = None ->
     patch_order mailer now orderId status st = (RStatus 404 "Order not found", st)) /\
  (forall o, find (has_id orderId) (orders st) = Some o ->
     orders (snd (patch_order mailer now orderId status st)) =
       update_first (has_id orderId) (set_status status now) (orders st) /\
     (forall s, status = JStr s ->
        fst (patch_order mailer now orderId status st) = ROrder (set_status status now o) /\
        outbox (snd (patch_order mailer now orderId status st)) =
          if mailer (status_mail o s) then (outbox st ++ [status_mail o s])%list
          else outbox st) /\
     ((forall s, status <> JStr s) ->
        fst (patch_order mailer now orderId status st) = RStatus 500 "Failed to update order" /\
        outbox (snd (patch_order mailer now orderId status st)) = outbox st)).
Proof.
  split.
  - intros H. unfold patch_order. rewrite H. reflexivity.
  - intros o Hf. pose proof (find_has_id _ _ _ Hf) as Hid.
    unfold patch_order. rewrite Hf. unfold sendStatusUpdate.
    cbn [o_id o_status set_status]. rewrite Hid.
    split; [|split].
    + destruct status; simpl; rewrite ?send_orders; reflexivity.
    + intros s ->. split; [reflexivity|]. unfold send, status_mail.
      cbn [o_customerEmail set_status]. rewrite Hid.
      destruct (mailer _); reflexivity.
    + intros Hs. destruct status; try (split; reflexivity).
      exfalso. eapply Hs. reflexivity.
Qed.

Lemma patch_order_behaviour_witness :
  patch_order all_mail_ok "t1" "ord-9" (JStr "shipped") store1
    = (RStatus 404 "Order not found", store1) /\
  fst (patch_order all_mail_ok "t1" "ord-1" (JStr "shipped") store1)
    = ROrder (set_status (JStr "shipped") "t1" order1) /\
  fst (patch_order all_mail_ok "t1" "ord-1" JUndefined store1)
    = RStatus 500 "Failed to update order".
Proof.
  split; [|split].
  - apply (proj1 (patch_order_behaviour all_mail_ok "t1" "ord-9" (JStr "shipped") store1)).
    reflexivity.
  - destruct (proj2 (patch_order_behaviour all_mail_ok "t1" "ord-1" (JStr "shipped") store1)
                order1 eq_refl) as (_ & H & _).
    exact (proj1 (H "shipped" eq_refl)).
  - destruct (proj2 (patch_order_behaviour all_mail_ok "t1" "ord-1" JUndefined store1)
                order1 eq_refl) as (_ & _ & H).
    apply H. discriminate.
Defined.

(** C10 (as stated) fails: a missing status is stored ([undefined]) but
    the request answers 500 instead of succeeding. *)
Lemma C10_missing_status_counterexample :
  fst (patch_order all_mail_ok "t1" "ord-1" JUndefined store1)
    = RStatus 500 "Failed to update order" /\
  map o_status (orders (snd (patch_order all_mail_ok "t1" "ord-1" JUndefined store1)))
    = [JUndefined].
Proof. vm_compute. split; reflexivity. Qed.

(** C10 (amended): for a known id, every string [s] (one of the seven labels
    or not) is stored verbatim and the update succeeds; a missing status is
    stored as [undefined] as well, but the request then answers 500. *)
Theorem patch_order_any_status (mailer : mail -> bool) now orderId st o :
  find (has_id orderId) (orders st) = Some o ->
  (forall s,
     fst (patch_order mailer now orderId (JStr s) st) = ROrder (set_status (JStr s) now o) /\
     o_status (set_status (JStr s) now o) = JStr s /\
     orders (snd (patch_order mailer now orderId (JStr s) st)) =
       update_first (has_id orderId) (set_status (JStr s) now) (orders st)) /\
  fst (patch_order mailer now orderId JUndefined st) = RStatus 500 "Failed to update order" /\
  orders (snd (patch_order mailer now orderId JUndefined st)) =
    update_first (has_id orderId) (set_status JUndefined now) (orders st).
Proof.
  intros Hf. pose proof (find_has_id _ _ _ Hf) as Hid.
  unfold patch_order. rewrite Hf. unfold sendStatusUpdate.
  cbn [o_id o_status set_status]. rewrite Hid.
  split; [|split; reflexivity].
  intros s. split; [reflexivity|]. split; [reflexivity|]. simpl. apply send_orders.
Qed.

Lemma patch_order_any_status_witness :
  (forall s,
     fst (patch_order all_mail_ok "t1" "ord-1" (JStr s) store1)
       = ROrder (set_status (JStr s) "t1" order1) /\
     o_status (set_status (JStr s) "t1" order1)
       = JStr s /\
     orders (snd (patch_order all_mail_ok "t1" "ord-1" (JStr s) store1)) =
       update_first (has_id "ord-1") (set_status (JStr s) "t1") (orders store1)) /\
  fst (patch_order all_mail_ok "t1" "ord-1" JUndefined store1) = RStatus 500 "Failed to update order" /\
  orders (snd (patch_order all_mail_ok "t1" "ord-1" JUndefined store1)) =
    update_first (has_id "ord-1") (set_status JUndefined "t1") (orders store1).
Proof. apply patch_order_any_status. reflexivity. Defined.

(** ** C6: the catalog lookups *)

Example catalog_domain :
  price_of "digital" = Some (JNum 7900) /\ price_of "print" = Some (JNum 18900) /\
  price_of "framed" = Some (JNum 39900) /\
  requires_shipping "digital" = Some (JBool false) /\
  requires_shipping "print" = Some (JBool true) /\
  requires_shipping "framed" = Some (JBool true) /\
  display_name "homeAlone" = Own "Home Alone" /\ display_name "elf" = Own "Elf" /\
  display_name "vacation" = Own "Christmas Vacation" /\
  price_of "poster" = None /\ display_name "grinch" = Absent.
Proof. repeat split. Qed.

(** C6 (code bug): the lookups [PRODUCTS[tier]] and [VIBES[vibe]] also see
    the names inherited from [Object.prototype]. The tier "constructor" is
    not a catalog code, yet its lookup is truthy: [price_of] yields
    [undefined] instead of failing, and checkout passes the "Invalid tier"
    check and sends the processor a line item without unit amount. *)
Theorem catalog_inherited_key_accepted :
  js_lookup PRODUCTS "constructor" = Inherited "constructor" /\
  price_of "constructor" = Some JUndefined /\
  display_name "toString" = Inherited "toString" /\
  exists req,
    checkout_step "ord-1" (with_tier (JStr "constructor") body_print2) = inr req /\
    sr_unit_amount req = JUndefined.
Proof.
  split; [reflexivity|]. split; [reflexivity|]. split; [reflexivity|].
  eexists. split; reflexivity.
Qed.

(** ** C7: checkout validation *)




(** ** Uploads *)

Lemma string_length_app (a b : string) :
  String.length (a ++ b) = (String.length a + String.length b)%nat.
Proof. induction a; simpl; [reflexivity | rewrite IHa; reflexivity]. Qed.



(** The staff notification links the photo as "/uploads/<uploadId>", but the
    file is served at "/uploads/<file uuid>-<original name>": the upload id
    is a second, separate [uuidv4()]. When the two uuids have the same
    length (as all uuids do), the link of an order referencing the upload
    never is the URL the upload answered. *)
Theorem internal_photo_link_mismatch file_uuid record_uuid now part uploads
    uploadId filename url us' o :
  upload_route file_uuid record_uuid now part uploads = (UOk uploadId filename url, us') ->
  String.length file_uuid = String.length record_uuid ->
  o_uploadId o = JStr uploadId ->
  internal_photo_path o <> url.
Proof.
  intros H Hlen Ho. unfold upload_route in H.
  destruct part as [f|]; [|discriminate].
  destruct (negb _); [discriminate|]. destruct (upload_limit <=? fp_size f); [discriminate|].
  injection H as <- <- <- _. unfold internal_photo_path. rewrite Ho. simpl js_to_string.
  intros E. apply (f_equal String.length) in E.
  repeat (rewrite string_length_app in E; simpl in E). lia.
Qed.

Lemma internal_photo_link_mismatch_witness :
  internal_photo_path (set_status (JStr "pending") "t0"
    {| o_id := JStr "ord-1"; o_stripeSessionId := "cs_1"; o_stripePaymentIntent := JUndefined;
       o_vibe := JStr "elf"; o_tier := JStr "print"; o_quantity := Some 1;
       o_uploadId := JStr "22222222-2222-4222-8222-222222222222";
       o_customerName := JStr "Ann"; o_customerEmail := JStr "ann@example.com";
       o_customerPhone := JStr ""; o_shippingAddress := JStr ""; o_notes := JStr "";
       o_amount := JNum 18900; o_status := JStr "pending"; o_createdAt := "t0";
       o_updatedAt := "t0" |})
  <> "/uploads/11111111-1111-4111-8111-111111111111-tree.png".
Proof.
  eapply (internal_photo_link_mismatch "11111111-1111-4111-8111-111111111111"
            "22222222-2222-4222-8222-222222222222" "t0" (Some photo_png) []).
  - reflexivity.
  - reflexivity.
  - reflexivity.
Defined.

(** ** Order lookup *)

(** [GET /api/order/:sessionId] answers after any Stripe deliveries to the
    webhook route as deployed exactly as before them: a session whose order
    was not stored before gets 404 "Order not found", however often its
    completed event is delivered. *)
Theorem get_order_after_deliveries retrieve signature_ok parse_event json_parse mailer now
    rqs st sid rs :
  retrieve sid = Some rs ->
  Forall (fun rq => forall j, json_parse (rq_raw rq) <> Some (JsonArray j)) rqs ->
  get_order retrieve sid (deliver_all signature_ok parse_event json_parse mailer now rqs st) =
    get_order retrieve sid st /\
  (find (fun o => String.eqb (o_stripeSessionId o) sid) (orders st) = None ->
   get_order retrieve sid (deliver_all signature_ok parse_event json_parse mailer now rqs st) =
     OStatus 404 "Order not found").
Proof.
  intros Hr Hrqs.
  destruct (deliver_all_orders signature_ok parse_event json_parse mailer now rqs st Hrqs)
    as [Ho _].
  assert (E : get_order retrieve sid (deliver_all signature_ok parse_event json_parse mailer now rqs st) =
                get_order retrieve sid st) by (unfold get_order; rewrite Ho; reflexivity).
  split; [exact E|]. intros Hf. rewrite E. unfold get_order. rewrite Hr, Hf. reflexivity.
Qed.

Lemma get_order_after_deliveries_witness :
  get_order paid_retrieve "cs_1"
    (deliver_all sample_signature_ok sample_parse_event sample_json_parse all_mail_ok "t0"
       [stripe_request "checkout.session.completed";
        stripe_request "checkout.session.completed"] empty_state) =
    get_order paid_retrieve "cs_1" empty_state /\
  (find (fun o => String.eqb (o_stripeSessionId o) "cs_1") (orders empty_state) = None ->
   get_order paid_retrieve "cs_1"
     (deliver_all sample_signature_ok sample_parse_event sample_json_parse all_mail_ok "t0"
        [stripe_request "checkout.session.completed";
         stripe_request "checkout.session.completed"] empty_state) =
     OStatus 404 "Order not found").
Proof.
  apply get_order_after_deliveries with
    (rs := {| rs_payment_status := JStr "paid"; rs_customer_email := JStr "ann@example.com" |}).
  - reflexivity.
  - repeat constructor; intros j; vm_compute; discriminate.
Defined.

(** ** Listing orders *)

Lemma insert_newest_first_perm d o l :
  Permutation (insert_newest_first d o l) (o :: l).
Proof.
  induction l as [|x r IH]; simpl; [reflexivity|].
  destruct (_ <=? _); [|reflexivity].
  eapply perm_trans; [apply perm_skip, IH | apply perm_swap].
Qed.

Lemma insert_newest_first_sorted d o l :
  Sorted (newer_or_same d) l -> Sorted (newer_or_same d) (insert_newest_first d o l).
Proof.
  induction l as [|x r IH]; simpl; intros Hs; [constructor; constructor|].
  apply Sorted_inv in Hs as [Hr Hx].
  destruct (_ <=? _) eqn:E.
  - apply Z.leb_le in E. constructor; [apply IH, Hr|].
    destruct r as [|y r']; simpl; [constructor; exact E|].
    destruct (_ <=? _); constructor; [apply HdRel_inv in Hx; exact Hx | exact E].
  - apply Z.leb_gt in E. constructor; [constructor; [exact Hr | exact Hx]|].
    constructor. unfold newer_or_same. lia.
Qed.

Lemma fold_insert_perm d l acc :
  Permutation (fold_left (fun acc o => insert_newest_first d o acc) l acc) (acc ++ l)%list.
Proof.
  revert acc. induction l as [|x r IH]; intros acc; simpl.
  - rewrite app_nil_r. reflexivity.
  - eapply perm_trans; [apply IH|].
    eapply perm_trans; [apply Permutation_app_tail, insert_newest_first_perm|].
    simpl. apply Permutation_middle.
Qed.

Lemma fold_insert_sorted d l acc :
  Sorted (newer_or_same d) acc ->
  Sorted (newer_or_same d) (fold_left (fun acc o => insert_newest_first d o acc) l acc).
Proof.
  revert acc. induction l as [|x r IH]; intros acc Hs; simpl; [exact Hs|].
  apply IH, insert_newest_first_sorted, Hs.
Qed.

(** [GET /api/admin/orders] answers with the stored orders, each once,
    newest first, and leaves the store holding them in that order. *)
Theorem list_orders_sorted_perm d st :
  Permutation (fst (list_orders d st)) (orders st) /\
  Sorted (newer_or_same d) (fst (list_orders d st)) /\
  orders (snd (list_orders d st)) = fst (list_orders d st).
Proof.
  unfold list_orders, sort_newest_first; simpl. split; [|split; [|reflexivity]].
  - apply (fold_insert_perm d (orders st) []).
  - apply fold_insert_sorted. constructor.
Qed.

Lemma insert_newest_first_last d x acc :
  (forall y, In y acc -> newer_or_same d y x) ->
  insert_newest_first d x acc = (acc ++ [x])%list.
Proof.
  induction acc as [|y r IH]; intros H; simpl; [reflexivity|].
  replace (d (o_createdAt x) <=? d (o_createdAt y)) with true
    by (symmetry; apply Z.leb_le, (H y); left; reflexivity).
  rewrite IH; [reflexivity|]. intros z Hz. apply H. right. exact Hz.
Qed.

Lemma strongly_sorted_app {A} (R : A -> A -> Prop) (l1 l2 : list A) :
  StronglySorted R (l1 ++ l2)%list -> forall y z, In y l1 -> In z l2 -> R y z.
Proof.
  induction l1 as [|x r IH]; simpl; intros Hs y z Hy Hz; [contradiction|].
  apply StronglySorted_inv in Hs as [Hs Hf].
  destruct Hy as [<-|Hy].
  - rewrite Forall_forall in Hf. apply Hf, in_or_app. right. exact Hz.
  - exact (IH Hs y z Hy Hz).
Qed.

Lemma fold_insert_sorted_id d l acc :
  StronglySorted (newer_or_same d) (acc ++ l)%list ->
  fold_left (fun acc o => insert_newest_first d o acc) l acc = (acc ++ l)%list.
Proof.
  revert acc. induction l as [|x r IH]; intros acc Hs; simpl; [rewrite app_nil_r; reflexivity|].
  rewrite insert_newest_first_last.
  - rewrite IH; [rewrite <- app_assoc; reflexivity|]. rewrite <- app_assoc. exact Hs.
  - intros y Hy. apply (strongly_sorted_app _ acc (x :: r) Hs); [exact Hy | left; reflexivity].
Qed.

Lemma sort_newest_first_sorted_id d l :
  Sorted (newer_or_same d) l -> sort_newest_first d l = l.
Proof.
  intros Hs. apply Sorted_StronglySorted in Hs.
  - apply (fold_insert_sorted_id d l []). exact Hs.
  - intros a b c Hab Hbc. unfold newer_or_same in *. lia.
Qed.

(** Listing the orders twice answers and stores the same as listing once:
    the in-place sort is stable, so a second sort moves nothing. *)
Theorem list_orders_idempotent d st :
  list_orders d (snd (list_orders d st)) = list_orders d st.
Proof.
  destruct (list_orders_sorted_perm d st) as [_ [Hs _]].
  unfold list_orders in *. simpl in *.
  rewrite (sort_newest_first_sorted_id d _ Hs). reflexivity.
Qed.

(** ** Webhook: store effects *)

(** The webhook never removes, reorders or changes a stored order: it appends
    at most one. *)
Theorem webhook_append_only ce mailer now payload sig st :
  exists suf, orders (snd (webhook ce mailer now payload sig st)) = (orders st ++ suf)%list /\
              (length suf <= 1)%nat.
Proof.
  destruct (ce payload sig) as [ev|] eqn:Hce.
  - destruct (String.eqb (ev_type ev) "checkout.session.completed") eqn:Ht.
    + apply String.eqb_eq in Ht. exists [build_order (ev_object ev) now].
      split; [apply webhook_completed_orders; assumption | simpl; lia].
    + exists []. unfold webhook. rewrite Hce, Ht. simpl. rewrite app_nil_r. split; [reflexivity | lia].
  - exists []. unfold webhook. rewrite Hce. simpl. rewrite app_nil_r. split; [reflexivity | lia].
Qed.

(** ** Status update: store effects *)

Lemma update_first_find {A} (p : A -> bool) (f : A -> A) (l : list A) (x : A) :
  find p l = Some x ->
  exists pre suf, l = (pre ++ x :: suf)%list /\ forallb (fun y => negb (p y)) pre = true /\
                  update_first p f l = (pre ++ f x :: suf)%list.
Proof.
  induction l as [|y r IH]; simpl; [discriminate|].
  destruct (p y) eqn:Hp.
  - intros [= <-]. exists [], r. simpl. auto.
  - intros H. destruct (IH H) as (pre & suf & -> & Hpre & Hu).
    exists (y :: pre), suf. simpl. rewrite Hp, Hpre, Hu. auto.
Qed.

Lemma sendStatusUpdate_orders mailer o st st' :
  sendStatusUpdate mailer o st = Some st' -> orders st' = orders st.
Proof.
  unfold sendStatusUpdate. destruct (o_id o), (o_status o); try discriminate.
  intros [= <-]. apply send_orders.
Qed.

Lemma patch_order_orders mailer now orderId status st :
  orders (snd (patch_order mailer now orderId status st)) =
    update_first (has_id orderId) (set_status status now) (orders st).
Proof.
  unfold patch_order. destruct (find _ _) as [o|] eqn:Hf.
  - destruct (sendStatusUpdate _ _ _) as [st2|] eqn:E.
    + apply sendStatusUpdate_orders in E. simpl. rewrite E. reflexivity.
    + reflexivity.
  - simpl. revert Hf. generalize (orders st). clear. induction l as [|x r IH]; simpl; [reflexivity|].
    destruct (has_id orderId x); [discriminate|]. intros H. f_equal. apply IH, H.
Qed.

(** When several orders carry the requested id, only the first is updated,
    whatever the mail does: the orders before it do not carry the id, and
    the later ones are left as they are. *)
Theorem patch_order_updates_first mailer now orderId status st o :
  find (has_id orderId) (orders st) = Some o ->
  exists pre suf,
    orders st = (pre ++ o :: suf)%list /\
    forallb (fun y => negb (has_id orderId y)) pre = true /\
    orders (snd (patch_order mailer now orderId status st)) =
      (pre ++ set_status status now o :: suf)%list.
Proof.
  intros Hf. rewrite patch_order_orders. apply update_first_find, Hf.
Qed.

Lemma patch_order_updates_first_witness :
  exists pre suf,
    orders store1 = (pre ++ order1 :: suf)%list /\
    forallb (fun y => negb (has_id "ord-1" y)) pre = true /\
    orders (snd (patch_order all_mail_ok "t1" "ord-1" (JStr "shipped") store1)) =
      (pre ++ set_status (JStr "shipped") "t1" order1 :: suf)%list.
Proof.
  apply (patch_order_updates_first all_mail_ok "t1" "ord-1" (JStr "shipped") store1 order1).
  reflexivity.
Defined.

(** A status update, answered or not, keeps the number of orders and every
    field of every order other than [status] and [updatedAt]. *)
Theorem patch_order_preserves_other_fields mailer now orderId status st :
  map erase_status (orders (snd (patch_order mailer now orderId status st))) =
    map erase_status (orders st).
Proof.
  rewrite patch_order_orders. generalize (orders st). induction l as [|x r IH]; simpl; [reflexivity|].
  destruct (has_id orderId x); simpl; [reflexivity | rewrite IH; reflexivity].
Qed.

Lemma assoc_not_key {A} (k : string) (l : list (string * A)) :
  ~ In k (map fst l) -> assoc k l = None.
Proof.
  induction l as [|[k' a] r IH]; simpl; intros H; [reflexivity|].
  destruct (String.eqb k k') eqn:E.
  - apply String.eqb_eq in E. subst. exfalso. apply H. left. reflexivity.
  - apply IH. intros Hin. apply H. right. exact Hin.
Qed.

(** A status that is not one of the seven known ones is stored, answered and
    mailed all the same; the mail then carries no status message of its own
    ([statusMessages[status]] is [undefined], or a property inherited from
    [Object.prototype] such as [toString]). *)
Theorem patch_order_unknown_status_mail (mailer : mail -> bool) now orderId st o s :
  find (has_id orderId) (orders st) = Some o ->
  ~ In s (map fst statusMessages) ->
  mailer (status_mail o s) = true ->
  orders (snd (patch_order mailer now orderId (JStr s) st)) =
    update_first (has_id orderId) (set_status (JStr s) now) (orders st) /\
  fst (patch_order mailer now orderId (JStr s) st) = ROrder (set_status (JStr s) now o) /\
  outbox (snd (patch_order mailer now orderId (JStr s) st)) =
    (outbox st ++ [status_mail o s])%list /\
  (forall msg, js_lookup statusMessages s <> Own msg).
Proof.
  intros Hf Hs Hm. pose proof (find_has_id _ _ _ Hf) as Hid.
  unfold patch_order. rewrite Hf. unfold sendStatusUpdate.
  cbn [o_id o_status o_customerEmail set_status].
  change {| m_kind := StatusUpdate (to_upper s) (js_lookup statusMessages s);
            m_to := ToCustomer (o_customerEmail o); m_order := o_id o |}
    with (status_mail o s).
  rewrite Hid. simpl fst. simpl snd.
  split; [unfold send; rewrite Hm; reflexivity|].
  split; [reflexivity|]. split.
  - unfold send. rewrite Hm. reflexivity.
  - intros msg. unfold js_lookup. rewrite (assoc_not_key _ _ Hs).
    destruct (existsb _ _); discriminate.
Qed.

Lemma patch_order_unknown_status_mail_witness :
  orders (snd (patch_order all_mail_ok "t1" "ord-1" (JStr "toString") store1)) =
    update_first (has_id "ord-1") (set_status (JStr "toString") "t1") (orders store1) /\
  fst (patch_order all_mail_ok "t1" "ord-1" (JStr "toString") store1) =
    ROrder (set_status (JStr "toString") "t1" order1) /\
  outbox (snd (patch_order all_mail_ok "t1" "ord-1" (JStr "toString") store1)) =
    [status_mail order1 "toString"] /\
  (forall msg, js_lookup statusMessages "toString" <> Own msg).
Proof.
  apply (patch_order_unknown_status_mail all_mail_ok "t1" "ord-1" store1 order1 "toString").
  - reflexivity.
  - simpl. intuition discriminate.
  - reflexivity.
Defined.
